(** * CyberDropDownloader: the Bunkrr crawler and the ScrapeItem model

    A shallow embedding of

      - [src/cyberdrop_dl/scraper/crawlers/bunkrr_crawler.py]
        ([BunkrrCrawler]: [fetch], [album], [video], [other],
        [get_stream_link], [parse_datetime], [set_cookies]) and
      - [src/cyberdrop_dl/utils/dataclasses/url_objects.py]
        ([ScrapeItem], [add_to_parent_title]),

    together with the parts of the Python libraries the crawler calls
    ([re], [yarl.URL], [datetime.strptime], [calendar.timegm]).

    Conventions.
      - Python [str] is [string], read as a sequence of characters with
        code below 256; characters beyond are outside the model.
      - A [yarl.URL] is its split, percent-encoded form.  The "raw"
        views of a URL are computed from it; the decoded views the crawler
        reads ([parts], [name], [suffix]) go through yarl's unquoting.
        The constructor [URL(str)] and the quoting of texts that need
        quoting are taken from the library as they are ([Url.Library]).
      - A Python call that may raise returns [exn + A]: [inl e] is
        "raises e", [inr a] is "returns a".
      - Methods that touch the crawler, the item or a collaborator are
        computations [M A] over an explicit [state]; the state reached when
        an exception is raised is kept, as in Python.
      - [await] points are sequential composition: one call of [fetch] is
        followed from entry to exit, interleaving with other tasks is not
        modelled. *)

From Stdlib Require Import ZArith Lia Bool Ascii String List.
From stdpp Require Import base option list strings gmap.

Local Open Scope string_scope.
Local Open Scope list_scope.
Local Open Scope Z_scope.

(** ** Exceptions and results *)

Inductive exn : Type :=
| NoExtensionFailure              (* cyberdrop_dl.clients.errors *)
| TypeError
| ValueError
| KeyError (key : string)
| IndexError
| AttributeError
| OtherError (msg : string).      (* any other exception of a collaborator *)

Definition result (A : Type) : Type := (exn + A)%type.

Definition raised {A} (r : result A) : bool :=
  match r with inl _ => true | inr _ => false end.

Definition rbind {A B} (r : result A) (k : A -> result B) : result B :=
  match r with inl e => inl e | inr a => k a end.

(** ** Strings as Python uses them *)

Module Str.

Definition is_digit (c : ascii) : bool :=
  let n := nat_of_ascii c in (48 <=? n)%nat && (n <=? 57)%nat.

Definition is_lower (c : ascii) : bool :=
  let n := nat_of_ascii c in (97 <=? n)%nat && (n <=? 122)%nat.

Definition is_upper (c : ascii) : bool :=
  let n := nat_of_ascii c in (65 <=? n)%nat && (n <=? 90)%nat.

(* str.isspace, and the class \s of [re]: \t \n \v \f \r, \x1c..\x1f,
   space, \x85 (next line) and \xa0 (no-break space) *)
Definition is_space (c : ascii) : bool :=
  let n := nat_of_ascii c in
  ((9 <=? n)%nat && (n <=? 13)%nat) || ((28 <=? n)%nat && (n <=? 32)%nat)
  || (n =? 133)%nat || (n =? 160)%nat.

(* the letters str.lower changes: A..Z, and \xc0..\xde without \xd7 *)
Definition is_cased_upper (c : ascii) : bool :=
  let n := nat_of_ascii c in
  is_upper c
  || ((192 <=? n)%nat && (n <=? 222)%nat && negb (n =? 215)%nat).

Definition lower_char (c : ascii) : ascii :=
  if is_cased_upper c then ascii_of_nat (nat_of_ascii c + 32) else c.

(* str.lower *)
Fixpoint lower (s : string) : string :=
  match s with
  | EmptyString => EmptyString
  | String c s' => String (lower_char c) (lower s')
  end.

(* s.startswith(p) *)
Fixpoint startswith (p s : string) : bool :=
  match p, s with
  | EmptyString, _ => true
  | String a p', String b s' => Ascii.eqb a b && startswith p' s'
  | String _ _, EmptyString => false
  end.

(* s[len(p):] when s.startswith(p) *)
Fixpoint strip_prefix (p s : string) : option string :=
  match p, s with
  | EmptyString, _ => Some s
  | String a p', String b s' =>
      if Ascii.eqb a b then strip_prefix p' s' else None
  | String _ _, EmptyString => None
  end.

(* s[n:] *)
Fixpoint drop (n : nat) (s : string) : string :=
  match n, s with
  | O, _ => s
  | S n', String _ s' => drop n' s'
  | S _, EmptyString => EmptyString
  end.

(* s.split(sep) for a one-character separator: never empty *)
Fixpoint split (sep : ascii) (s : string) : list string :=
  match s with
  | EmptyString => [EmptyString]
  | String c s' =>
      if Ascii.eqb c sep then EmptyString :: split sep s'
      else match split sep s' with
           | w :: ws => String c w :: ws
           | [] => [String c EmptyString]
           end
  end.

(* sep.join(parts) *)
Fixpoint join (sep : string) (parts : list string) : string :=
  match parts with
  | [] => EmptyString
  | [w] => w
  | w :: ws => w +:+ sep +:+ join sep ws
  end.

(* s.rfind(c); None is Python's -1 *)
Fixpoint rfind (c : ascii) (s : string) : option nat :=
  match s with
  | EmptyString => None
  | String c' s' =>
      match rfind c s' with
      | Some i => Some (S i)
      | None => if Ascii.eqb c' c then Some O else None
      end
  end.

(* c in s *)
Fixpoint contains (c : ascii) (s : string) : bool :=
  match s with
  | EmptyString => false
  | String c' s' => Ascii.eqb c' c || contains c s'
  end.

(* the longest prefix of characters satisfying p, and the rest *)
Fixpoint span (p : ascii -> bool) (s : string) : string * string :=
  match s with
  | EmptyString => (EmptyString, EmptyString)
  | String c s' =>
      if p c then let '(a, b) := span p s' in (String c a, b)
      else (EmptyString, s)
  end.

Fixpoint lstrip_by (p : ascii -> bool) (s : string) : string :=
  match s with
  | EmptyString => EmptyString
  | String c s' => if p c then lstrip_by p s' else s
  end.

Fixpoint rstrip_by (p : ascii -> bool) (s : string) : string :=
  match s with
  | EmptyString => EmptyString
  | String c s' =>
      match rstrip_by p s' with
      | EmptyString => if p c then EmptyString else String c EmptyString
      | t => String c t
      end
  end.

(* s.strip() *)
Definition strip (s : string) : string := rstrip_by is_space (lstrip_by is_space s).

(* x in table, for a table of strings *)
Definition mem (x : string) (table : list string) : bool :=
  existsb (String.eqb x) table.

(* truthiness of a str *)
Definition truthy (s : string) : bool :=
  match s with EmptyString => false | _ => true end.

End Str.

(** ** Regular expressions ([re]) *)

Module Re.

(** The fragment of Python's pattern syntax the crawler uses: literals,
    character ranges, sequence, alternation and bounded repetition. *)
Inductive regex : Type :=
| Eps
| Chr (c : ascii)
| Range (lo hi : ascii)
| Seq (r1 r2 : regex)
| Alt (r1 r2 : regex)
| Rep (lo hi : nat) (r : regex).       (* r{lo,hi}, greedy *)

Fixpoint Lit (s : string) : regex :=
  match s with
  | EmptyString => Eps
  | String c s' => Seq (Chr c) (Lit s')
  end.

Fixpoint Alts (rs : list regex) : regex :=
  match rs with
  | [] => Rep 1 0 Eps            (* matches nothing *)
  | [r] => r
  | r :: rs' => Alt r (Alts rs')
  end.

(* between lo and hi rounds of [step], most rounds first *)
Fixpoint rep_run (step : string -> list string) (lo hi : nat) (s : string)
  : list string :=
  match hi with
  | O => match lo with O => [s] | S _ => [] end
  | S hi' =>
      flat_map (rep_run step (Nat.pred lo) hi') (step s)
      ++ match lo with O => [s] | S _ => [] end
  end.

(** [run r s]: the remainders of [s] after each way [r] matches a prefix
    of [s], in the order a backtracking matcher tries them. *)
Fixpoint run (r : regex) (s : string) : list string :=
  match r with
  | Eps => [s]
  | Chr c =>
      match s with
      | String c' s' => if Ascii.eqb c c' then [s'] else []
      | EmptyString => []
      end
  | Range lo hi =>
      match s with
      | String c' s' =>
          if (nat_of_ascii lo <=? nat_of_ascii c')%nat
             && (nat_of_ascii c' <=? nat_of_ascii hi)%nat
          then [s'] else []
      | EmptyString => []
      end
  | Seq r1 r2 => flat_map (run r2) (run r1 s)
  | Alt r1 r2 => run r1 s ++ run r2 s
  | Rep lo hi r' => rep_run (run r') lo hi s
  end.

(* "$" without re.MULTILINE: the end, or just before a final newline *)
Definition at_dollar (rest : string) : bool :=
  match rest with
  | EmptyString => true
  | String c EmptyString => Ascii.eqb c "010"
  | _ => false
  end.

(** [bool(re.match("^" r "$", s))] *)
Definition matches (r : regex) (s : string) : bool :=
  existsb at_dollar (run r s).

(** [re.match(pattern, s)] raises TypeError when [s] is None. *)
Definition match_opt (r : regex) (s : option string) : result bool :=
  match s with
  | None => inl TypeError
  | Some s' => inr (matches r s')
  end.

End Re.

(** ** URLs ([yarl.URL]) *)

(** The split form a [yarl.URL] keeps ([URL._val]).  [host] is what
    [URL.host] gives, [None] for a URL without authority (a relative
    URL); [path] is the stored path, percent-encoded, which is empty for
    "https://bunkrr.su". *)
Record URL : Type := mkURL {
  scheme   : string;
  userinfo : string;
  host     : option string;
  port     : string;
  path     : string;
  query    : string;
  fragment : string
}.

Module Url.

(** What is taken from yarl as it is, since the crawler's own code
    decides nothing of it; every statement about the crawler holds for
    every such library:

      - [of_string s] is the constructor [URL(s)];
      - [unquote_escapes s] is [URL._UNQUOTER(s)] for a text that holds
        a "%";
      - [quote_reserved s] is the path quoter [URL._PATH_QUOTER(s)] for
        a text that holds a character other than a letter, a digit, one
        of "-._~" or "/";
      - [join_segments u name] is the path of [u / name] when the
        quoted [name] or the path of [u] has an empty segment, a "." or
        a "..", which yarl drops, pops or keeps. *)
Class Library : Type := {
  of_string       : string -> result URL;
  unquote_escapes : string -> string;
  quote_reserved  : string -> string;
  join_segments   : URL -> string -> string
}.

Fixpoint all_chars (p : ascii -> bool) (s : string) : bool :=
  match s with
  | EmptyString => true
  | String c s' => p c && all_chars p s'
  end.

(* the characters no quoter of yarl touches *)
Definition is_unreserved (c : ascii) : bool :=
  Str.is_lower c || Str.is_upper c || Str.is_digit c
  || Ascii.eqb c "-" || Ascii.eqb c "." || Ascii.eqb c "_" || Ascii.eqb c "~".

(* URL._UNQUOTER(s): only escapes are decoded, and an escape starts
   with "%" *)
Definition unquote `{Library} (s : string) : string :=
  if Str.contains "%" s then unquote_escapes s else s.

(* URL._PATH_QUOTER(s): unreserved characters and "/" are copied *)
Definition quote `{Library} (s : string) : string :=
  if all_chars (fun c => is_unreserved c || Ascii.eqb c "/") s then s
  else quote_reserved s.

(* URL.is_absolute() *)
Definition is_absolute (u : URL) : bool :=
  match host u with Some _ => true | None => false end.

(* URL.raw_parts *)
Definition raw_parts (u : URL) : list string :=
  let p := path u in
  if is_absolute u then
    match p with
    | EmptyString => ["/"]
    | String _ p' => "/" :: Str.split "/" p'
    end
  else if Str.startswith "/" p then "/" :: Str.split "/" (Str.drop 1 p)
  else Str.split "/" p.

(* URL.parts: each raw part unquoted *)
Definition parts `{Library} (u : URL) : list string :=
  map unquote (raw_parts u).

(* URL.raw_name *)
Definition raw_name (u : URL) : string :=
  let ps := raw_parts u in
  if is_absolute u then
    match tail ps with
    | [] => EmptyString
    | t => List.last t EmptyString
    end
  else List.last ps EmptyString.

(* URL.name *)
Definition name `{Library} (u : URL) : string := unquote (raw_name u).

(* parts[-1]: the tuple is never empty *)
Definition last_part `{Library} (u : URL) : string :=
  List.last (parts u) EmptyString.

(* the suffix of a file name: name[i:] for i = name.rfind(".") when
   0 < i < len(name) - 1, and "" otherwise *)
Definition suffix_of (nm : string) : string :=
  match Str.rfind "." nm with
  | Some i =>
      if (0 <? i)%nat && (i + 1 <? String.length nm)%nat
      then Str.drop i nm else EmptyString
  | None => EmptyString
  end.

(* URL.raw_suffix *)
Definition raw_suffix (u : URL) : string := suffix_of (raw_name u).

(* URL.suffix: the raw suffix unquoted *)
Definition suffix `{Library} (u : URL) : string := unquote (raw_suffix u).

(* URL.with_host(h): only an absolute URL may change host, and never
   to the empty host *)
Definition with_host (u : URL) (h : string) : result URL :=
  if negb (is_absolute u) then inl ValueError
  else if negb (Str.truthy h) then inl ValueError
  else inr (mkURL (scheme u) (userinfo u) (Some h) (port u)
                  (path u) (query u) (fragment u)).

(* segments that are joined as they stand: none is empty, "." or ".." *)
Definition regular (segs : list string) : bool :=
  forallb (fun seg => negb (String.eqb seg "") && negb (String.eqb seg ".")
                      && negb (String.eqb seg ".."))
          segs.

(* a path to which a name is appended as it stands: "", "/", or a
   rooted path of regular segments *)
Definition regular_path (p : string) : bool :=
  String.eqb p "" || String.eqb p "/"
  || (Str.startswith "/" p && regular (Str.split "/" (Str.drop 1 p))).

(* URL.__truediv__: u / nm.  A name that starts with a slash is
   refused; the name is quoted and its segments are appended to those of
   the path; the query and the fragment are dropped. *)
Definition truediv `{Library} (u : URL) (nm : string) : result URL :=
  if Str.startswith "/" nm then inl ValueError
  else
    let p := path u in
    let q := quote nm in
    let new_path :=
      if regular (Str.split "/" q) && regular_path p then
        if String.eqb p "" then (if is_absolute u then "/" +:+ q else q)
        else if String.eqb p "/" then "/" +:+ q
        else p +:+ "/" +:+ q
      else join_segments u nm in
    inr (mkURL (scheme u) (userinfo u) (host u) (port u) new_path "" "").

(** URL(v) for an attribute value that may be None *)
Definition of_attr `{Library} (v : option string) : result URL :=
  match v with
  | None => inl TypeError
  | Some s => of_string s
  end.

End Url.

(** ** Dates ([datetime], [_strptime], [calendar]) *)

Record datetime : Type := mkDatetime {
  year : Z; month : Z; day : Z; hour : Z; minute : Z; second : Z
}.

Module PyTime.

(* datetime._is_leap *)
Definition is_leap (y : Z) : bool :=
  (y mod 4 =? 0) && (negb (y mod 100 =? 0) || (y mod 400 =? 0)).

(* datetime._days_before_year *)
Definition days_before_year (y : Z) : Z :=
  let y := y - 1 in y * 365 + y / 4 - y / 100 + y / 400.

Definition DAYS_IN_MONTH : list Z :=
  [-1; 31; 28; 31; 30; 31; 30; 31; 31; 30; 31; 30; 31].

Definition DAYS_BEFORE_MONTH : list Z :=
  [-1; 0; 31; 59; 90; 120; 151; 181; 212; 243; 273; 304; 334].

(* datetime._days_in_month *)
Definition days_in_month (y m : Z) : Z :=
  if (m =? 2) && is_leap y then 29
  else nth (Z.to_nat m) DAYS_IN_MONTH 0.

(* datetime._days_before_month *)
Definition days_before_month (y m : Z) : Z :=
  nth (Z.to_nat m) DAYS_BEFORE_MONTH 0
  + (if (2 <? m) && is_leap y then 1 else 0).

(* datetime._ymd2ord: 01-Jan-0001 is day 1 *)
Definition ymd2ord (y m d : Z) : Z :=
  days_before_year y + days_before_month y m + d.

(* calendar._EPOCH_ORD = datetime.date(1970, 1, 1).toordinal() *)
Definition EPOCH_ORD : Z := ymd2ord 1970 1 1.

(* calendar.timegm(dt.timetuple()) *)
Definition timegm (dt : datetime) : Z :=
  let days := ymd2ord (year dt) (month dt) 1 - EPOCH_ORD + day dt - 1 in
  let hours := days * 24 + hour dt in
  let minutes := hours * 60 + minute dt in
  minutes * 60 + second dt.

(* datetime._check_date_fields and _check_time_fields *)
Definition valid (dt : datetime) : bool :=
  (1 <=? year dt) && (year dt <=? 9999)
  && (1 <=? month dt) && (month dt <=? 12)
  && (1 <=? day dt) && (day dt <=? days_in_month (year dt) (month dt))
  && (0 <=? hour dt) && (hour dt <=? 23)
  && (0 <=? minute dt) && (minute dt <=? 59)
  && (0 <=? second dt) && (second dt <=? 59).

(** *** The matcher of "%H:%M:%S %d/%m/%Y"

    [_strptime] compiles the format into the regular expression
      (2[0-3]|[0-1]\d|\d):([0-5]\d|\d):(6[0-1]|[0-5]\d|\d)\s+
      (3[0-1]|[1-2]\d|0[1-9]|[1-9]| [1-9])/(1[0-2]|0[1-9]|[1-9])/(\d\d\d\d)
    A parser yields every way to read a prefix, in the order the
    backtracking matcher tries them; the match is the first one. *)

Definition parser (A : Type) : Type := string -> list (A * string).

Definition digit_val (c : ascii) : Z := Z.of_nat (nat_of_ascii c) - 48.

Definition between (lo hi : ascii) (c : ascii) : bool :=
  (nat_of_ascii lo <=? nat_of_ascii c)%nat
  && (nat_of_ascii c <=? nat_of_ascii hi)%nat.

Definition one (p : ascii -> bool) : parser Z := fun s =>
  match s with
  | String c s' => if p c then [(digit_val c, s')] else []
  | EmptyString => []
  end.

Definition two (p1 p2 : ascii -> bool) : parser Z := fun s =>
  match s with
  | String c1 (String c2 s') =>
      if p1 c1 && p2 c2 then [(10 * digit_val c1 + digit_val c2, s')]
      else []
  | _ => []
  end.

Definition lit (c : ascii) : parser unit := fun s =>
  match s with
  | String c' s' => if Ascii.eqb c c' then [(tt, s')] else []
  | EmptyString => []
  end.

Definition alt {A} (ps : list (parser A)) : parser A := fun s =>
  flat_map (fun p : parser A => p s) ps.

Definition pbind {A B} (p : parser A) (k : A -> parser B) : parser B :=
  fun s => flat_map (fun '(a, rest) => k a rest) (p s).

Definition pret {A} (a : A) : parser A := fun s => [(a, s)].

(* \s*, longest first *)
Fixpoint spaces0 (s : string) : list (unit * string) :=
  match s with
  | String c s' => if Str.is_space c then spaces0 s' ++ [(tt, s)] else [(tt, s)]
  | EmptyString => [(tt, EmptyString)]
  end.

(* \s+ *)
Definition spaces1 : parser unit := fun s =>
  match s with
  | String c s' => if Str.is_space c then spaces0 s' else []
  | EmptyString => []
  end.

Definition dig : ascii -> bool := Str.is_digit.

Definition p_H : parser Z :=
  alt [two (Ascii.eqb "2") (between "0" "3"); two (between "0" "1") dig; one dig].
Definition p_M : parser Z :=
  alt [two (between "0" "5") dig; one dig].
Definition p_S : parser Z :=
  alt [two (Ascii.eqb "6") (between "0" "1"); two (between "0" "5") dig; one dig].
Definition p_d : parser Z :=
  alt [two (Ascii.eqb "3") (between "0" "1"); two (between "1" "2") dig;
       two (Ascii.eqb "0") (between "1" "9"); one (between "1" "9");
       pbind (lit " ") (fun _ => one (between "1" "9"))].
Definition p_m : parser Z :=
  alt [two (Ascii.eqb "1") (between "0" "2");
       two (Ascii.eqb "0") (between "1" "9"); one (between "1" "9")].
Definition p_Y : parser Z :=
  pbind (two dig dig) (fun hi =>
  pbind (two dig dig) (fun lo => pret (100 * hi + lo))).

Definition format_regex : parser datetime :=
  pbind p_H (fun H => pbind (lit ":") (fun _ =>
  pbind p_M (fun M => pbind (lit ":") (fun _ =>
  pbind p_S (fun S => pbind spaces1 (fun _ =>
  pbind p_d (fun d => pbind (lit "/") (fun _ =>
  pbind p_m (fun m => pbind (lit "/") (fun _ =>
  pbind p_Y (fun Y => pret (mkDatetime Y m d H M S)))))))))))).

(** [datetime.datetime.strptime(s, "%H:%M:%S %d/%m/%Y")]: no match, text
    left after the match, and fields that are no date all raise
    ValueError. *)
Definition strptime (s : string) : result datetime :=
  match format_regex s with
  | [] => inl ValueError
  | (dt, rest) :: _ =>
      match rest with
      | EmptyString => if valid dt then inr dt else inl ValueError
      | _ => inl ValueError
      end
  end.

(** What follows a field rejects a text that goes on with a digit. *)
Definition rejects_digit {A} (k : parser A) : Prop :=
  forall c s, Str.is_digit c = true -> k (String c s) = [].

(** *** What the epoch is, by counting days

    The reference the result is compared with: the days from 1 January
    1970 to a date, counted year by year and month by month. *)

Definition year_length (y : Z) : Z := if is_leap y then 366 else 365.

Definition month_length (y m : Z) : Z :=
  if m =? 2 then (if is_leap y then 29 else 28)
  else if (m =? 4) || (m =? 6) || (m =? 9) || (m =? 11) then 30
  else 31.

(* the lengths of the n years from y on *)
Fixpoint years_from (y : Z) (n : nat) : Z :=
  match n with
  | O => 0
  | S n' => year_length y + years_from (y + 1) n'
  end.

(* the lengths of the n months of year y from month m on *)
Fixpoint months_from (y m : Z) (n : nat) : Z :=
  match n with
  | O => 0
  | S n' => month_length y m + months_from y (m + 1) n'
  end.

Definition days_since_epoch (y m d : Z) : Z :=
  (if 1970 <=? y then years_from 1970 (Z.to_nat (y - 1970))
   else - years_from y (Z.to_nat (1970 - y)))
  + months_from y 1 (Z.to_nat (m - 1))
  + (d - 1).

Definition unix_epoch (dt : datetime) : Z :=
  86400 * days_since_epoch (year dt) (month dt) (day dt)
  + 3600 * hour dt + 60 * minute dt + second dt.

(** *** Writing a date in the format, two digits a field and four for
    the year *)

Definition digit_char (n : Z) : ascii := ascii_of_nat (Z.to_nat (48 + n)).

Definition two_digits (n : Z) (rest : string) : string :=
  String (digit_char (n / 10)) (String (digit_char (n mod 10)) rest).

Definition render (dt : datetime) : string :=
  two_digits (hour dt) (String ":"
  (two_digits (minute dt) (String ":"
  (two_digits (second dt) (String " "
  (two_digits (day dt) (String "/"
  (two_digits (month dt) (String "/"
  (two_digits (year dt / 100) (two_digits (year dt mod 100) EmptyString))))))))))).

(* the same, with [rest] after the year *)
Definition render_before (dt : datetime) (rest : string) : string :=
  two_digits (hour dt) (String ":"
  (two_digits (minute dt) (String ":"
  (two_digits (second dt) (String " "
  (two_digits (day dt) (String "/"
  (two_digits (month dt) (String "/"
  (two_digits (year dt / 100) (two_digits (year dt mod 100) rest))))))))))).

End PyTime.

(** ** The data model ([url_objects.py]) *)

Record ScrapeItem : Type := mkScrapeItem {
  url               : URL;
  parent_title      : string;
  part_of_album     : bool;
  possible_datetime : option Z;
  retry             : bool;
  retry_path        : option string
}.

Definition with_url (it : ScrapeItem) (u : URL) : ScrapeItem :=
  mkScrapeItem u (parent_title it) (part_of_album it) (possible_datetime it)
               (retry it) (retry_path it).

Definition with_parent_title (it : ScrapeItem) (t : string) : ScrapeItem :=
  mkScrapeItem (url it) t (part_of_album it) (possible_datetime it)
               (retry it) (retry_path it).

(** ** Collaborators the crawler talks to *)

(** A value of the configuration mapping. *)
Inductive pyval : Type :=
| PyNone
| PyStr (s : string)
| PyInt (n : Z)
| PyBool (b : bool).

Definition truthy (v : pyval) : bool :=
  match v with
  | PyNone => false
  | PyStr s => Str.truthy s
  | PyInt n => negb (n =? 0)
  | PyBool b => b
  end.

(** One entry of an album listing: what
    [select_one('a[class*="grid-images_box-link"]')] and
    [select_one('p[class*="date"]')] find in it.  [None] is "no such
    element"; the anchor carries its [href], if it has one; the date
    element carries its text. *)
Record card : Type := mkCard {
  card_file : option (option string);
  card_date : option string
}.

(** A parsed page, seen through the selectors the crawler uses. *)
Record soup : Type := mkSoup {
  (* the h1 title element and its text once the spans are removed *)
  title_text    : option string;
  (* select('div[class*="grid-images_box rounded-lg"]') *)
  card_listings : list card;
  (* the href of each element of select("a[class*=bg-blue-500]") *)
  blue_anchors  : list (option string);
  (* the href of each element of select('a[class*="text-white inline-flex"]') *)
  white_anchors : list (option string)
}.

Inductive tracker_event : Type :=
| AddTask (u : URL) (task_id : nat)
| RemoveTask (task_id : nat).

(** Everything one call of [fetch] can read or change. *)
Record state : Type := mkState {
  item                : ScrapeItem;     (* the object passed to fetch *)
  cookies_set         : bool;           (* self.cookies_set *)
  authentication_data : gmap string (gmap string pyval);
  cookies             : gmap (string * string) pyval;  (* jar: (domain, name) *)
  progress            : list tracker_event;  (* calls on scraping_progress *)
  next_task           : nat;
  scraper_queue       : list ScrapeItem;
  handled             : list (URL * ScrapeItem * string * string);
  failures            : list (URL * exn)     (* what the wrapper logged *)
}.

Definition set_item (s : state) (it : ScrapeItem) : state :=
  mkState it (cookies_set s) (authentication_data s) (cookies s) (progress s)
          (next_task s) (scraper_queue s) (handled s) (failures s).

Definition set_cookies_set (s : state) (b : bool) : state :=
  mkState (item s) b (authentication_data s) (cookies s) (progress s)
          (next_task s) (scraper_queue s) (handled s) (failures s).

Definition set_jar (s : state) (j : gmap (string * string) pyval) : state :=
  mkState (item s) (cookies_set s) (authentication_data s) j (progress s)
          (next_task s) (scraper_queue s) (handled s) (failures s).

Definition set_progress (s : state) (p : list tracker_event) (n : nat) : state :=
  mkState (item s) (cookies_set s) (authentication_data s) (cookies s) p
          n (scraper_queue s) (handled s) (failures s).

Definition set_queue (s : state) (q : list ScrapeItem) : state :=
  mkState (item s) (cookies_set s) (authentication_data s) (cookies s)
          (progress s) (next_task s) q (handled s) (failures s).

Definition set_handled (s : state)
  (h : list (URL * ScrapeItem * string * string)) : state :=
  mkState (item s) (cookies_set s) (authentication_data s) (cookies s)
          (progress s) (next_task s) (scraper_queue s) h (failures s).

Definition set_failures (s : state) (f : list (URL * exn)) : state :=
  mkState (item s) (cookies_set s) (authentication_data s) (cookies s)
          (progress s) (next_task s) (scraper_queue s) (handled s) f.

(** ** Computations: state and exceptions *)

Definition M (A : Type) : Type := state -> result A * state.

Definition ret {A} (a : A) : M A := fun s => (inr a, s).

Definition raise {A} (e : exn) : M A := fun s => (inl e, s).

Definition bind {A B} (c : M A) (k : A -> M B) : M B := fun s =>
  match c s with
  | (inl e, s') => (inl e, s')
  | (inr a, s') => k a s'
  end.

Definition lift {A} (r : result A) : M A := fun s => (r, s).

Definition get_item : M ScrapeItem := fun s => (inr (item s), s).

Definition modify (f : state -> state) : M unit := fun s => (inr tt, f s).

Notation "x <~ c ;; k" := (bind c (fun x => k))
  (at level 100, c at next level, right associativity).
Notation "c ;;; k" := (bind c (fun _ => k))
  (at level 100, right associativity).

(* for x in xs: body(x) *)
Fixpoint for_each {A} (xs : list A) (body : A -> M unit) : M unit :=
  match xs with
  | [] => ret tt
  | x :: xs' => body x ;;; for_each xs' body
  end.

(* try: body  except NoExtensionFailure: handler *)
Definition try_except_NoExtensionFailure {A} (body handler : M A) : M A :=
  fun s =>
    match body s with
    | (inl NoExtensionFailure, s') => handler s'
    | r => r
    end.

(* what x[...] or x.attr raises when the selector found nothing *)
Definition required {A} (e : exn) (o : option A) : result A :=
  match o with Some a => inr a | None => inl e end.

(** [c] leaves the component [f] of the state as it is, whether it
    returns or raises. *)
Definition keeps {A B} (f : state -> B) (c : M A) : Prop :=
  forall s, f (snd (c s)) = f s.

(** ** Sample collaborators and inputs

    Tables, collaborators, pages and states at which the statements of
    the last part are evaluated. *)

Module Samples.

(** Modelled from the spec: [FILE_FORMATS] is a table of
    [cyberdrop_dl/utils/utilities.py], which is not among the sources;
    spec 4.4 speaks of "known image/video extension sets".  A few members
    of each set. *)
Definition Images : list string := [".jpg"; ".jpeg"; ".png"; ".gif"; ".webp"].
Definition Videos : list string := [".mp4"; ".mkv"; ".webm"; ".mov"].

Definition illegal (c : ascii) : bool :=
  existsb (Ascii.eqb c)
    ["\"; "*"; "?"; ":"; "<"; ">"; "|"; "."; "/"; "034"]%char.

Fixpoint replace_illegal (t : string) : string :=
  match t with
  | EmptyString => EmptyString
  | String c t' => String (if illegal c then "-"%char else c) (replace_illegal t')
  end.

(** Modelled from the spec: [sanitize_folder] is a function of
    [cyberdrop_dl/utils/utilities.py], which is not among the sources;
    spec 4.3: "strips/escapes characters illegal in filesystem path
    segments".  Here every such character becomes a dash and the ends are
    stripped. *)
Definition sanitize_folder (t : string) : string :=
  Str.strip (replace_illegal t).

(** Modelled from the spec: [get_filename_and_ext] is a function of
    [cyberdrop_dl/utils/utilities.py], which is not among the sources;
    spec 6: "get_filename_and_ext(path_segment) -> (filename, ext), fails
    with NoExtensionFailure when no recognized extension is present".
    Here the extension is what follows the last dot. *)
Definition get_filename_and_ext (filename : string) : result (string * string) :=
  match Str.rfind "." filename with
  | None => inl NoExtensionFailure
  | Some i => inr (filename, Str.lower (Str.drop i filename))
  end.

Definition create_title (title : string) (album_id thread_id : option string)
  : string := title +:+ " (Bunkrr)".

Definition handle_file_raises
  (link : URL) (it : ScrapeItem) (filename ext : string) : option exn := None.

(** The library at the samples: a constructor for links written as
    scheme://host/path?query#fragment or as a path, an unquoter of the
    escapes of ASCII characters, a quoter that escapes every character it
    does not copy, and a join that appends the quoted name. *)

(* text before and after the first character satisfying p *)
Fixpoint break (p : ascii -> bool) (s : string) : string * option string :=
  match s with
  | EmptyString => (EmptyString, None)
  | String c s' =>
      if p c then (EmptyString, Some s')
      else let '(a, b) := break p s' in (String c a, b)
  end.

(* text before the first character satisfying p, and the text from it *)
Fixpoint until (p : ascii -> bool) (s : string) : string * string :=
  match s with
  | EmptyString => (EmptyString, EmptyString)
  | String c s' =>
      if p c then (EmptyString, s)
      else let '(a, b) := until p s' in (String c a, b)
  end.

Definition is_delim (c : ascii) : bool :=
  Ascii.eqb c "/" || Ascii.eqb c "?" || Ascii.eqb c "#".

Definition split_scheme (s : string) : string * string :=
  match break (Ascii.eqb ":") s with
  | (String c sch, Some rest) =>
      if (Str.is_lower c || Str.is_upper c)
         && Url.all_chars (fun c => Str.is_lower c || Str.is_upper c
                                    || Str.is_digit c) sch
      then (Str.lower (String c sch), rest) else (EmptyString, s)
  | _ => (EmptyString, s)
  end.

Definition of_string (s : string) : result URL :=
  let '(sch, rest) := split_scheme s in
  let '(netloc, rest) :=
    match Str.strip_prefix "//" rest with
    | Some r => until is_delim r
    | None => (EmptyString, rest)
    end in
  let '(rest, frag) :=
    match break (Ascii.eqb "#") rest with
    | (a, Some b) => (a, b)
    | (a, None) => (a, EmptyString)
    end in
  let '(pth, qry) :=
    match break (Ascii.eqb "?") rest with
    | (a, Some b) => (a, b)
    | (a, None) => (a, EmptyString)
    end in
  match netloc with
  | EmptyString => inr (mkURL sch "" None "" pth qry frag)
  | _ =>
      if Url.all_chars (fun c => Url.is_unreserved c) netloc
      then inr (mkURL sch "" (Some (Str.lower netloc)) "" pth qry frag)
      else inl ValueError
  end.

Definition hex_value (c : ascii) : option nat :=
  let n := nat_of_ascii c in
  if Str.is_digit c then Some (n - 48)%nat
  else if (65 <=? n)%nat && (n <=? 70)%nat then Some (n - 55)%nat
  else if (97 <=? n)%nat && (n <=? 102)%nat then Some (n - 87)%nat
  else None.

(* "%41" becomes "A"; an escape above "%7F" is left as it is written *)
Fixpoint unquote_escapes (s : string) : string :=
  match s with
  | EmptyString => EmptyString
  | String c s' =>
      match s' with
      | String a (String b rest) =>
          match Ascii.eqb c "%", hex_value a, hex_value b with
          | true, Some x, Some y =>
              if (x <? 8)%nat
              then String (ascii_of_nat (16 * x + y)) (unquote_escapes rest)
              else String c (unquote_escapes s')
          | _, _, _ => String c (unquote_escapes s')
          end
      | _ => String c (unquote_escapes s')
      end
  end.

Definition hex_digit (n : nat) : ascii :=
  if (n <? 10)%nat then ascii_of_nat (48 + n) else ascii_of_nat (55 + n).

Fixpoint quote_reserved (s : string) : string :=
  match s with
  | EmptyString => EmptyString
  | String c s' =>
      if Url.is_unreserved c || Ascii.eqb c "/"
      then String c (quote_reserved s')
      else
        let n := nat_of_ascii c in
        String "%" (String (hex_digit (n / 16))
                      (String (hex_digit (n mod 16)) (quote_reserved s')))
  end.

Definition library : Url.Library :=
  {| Url.of_string := of_string;
     Url.unquote_escapes := unquote_escapes;
     Url.quote_reserved := quote_reserved;
     Url.join_segments := fun u nm =>
       path u +:+ "/" +:+ quote_reserved nm |}.

Definition page_url (p : string) : URL :=
  mkURL "https" "" (Some "bunkrr.su") "" p "" "".

Definition file_url (h p : string) : URL :=
  mkURL "https" "" (Some h) "" p "" "".

(* a URL without host: URL("/a/abc123") *)
Definition relative_url : URL := mkURL "" "" None "" "/a/abc123" "" "".

(* an album of two images and a video, the title padded with blanks *)
Definition album_page : soup :=
  mkSoup (Some "  Holiday: 2021 ")
    [ mkCard (Some (Some "https://cdn12.bunkr.ru/one.jpg"))
             (Some "14:30:00 05/03/2021");
      mkCard (Some (Some "/i/two.png")) (Some "09:05:07 31/12/2020");
      mkCard (Some (Some "https://media-files3.bunkr.ru/clip.mp4"))
             (Some "23:59:59 01/01/2022") ]
    [] [].

(* the same album, the second entry without a date element *)
Definition undated_page : soup :=
  mkSoup (Some "  Holiday: 2021 ")
    [ mkCard (Some (Some "https://cdn12.bunkr.ru/one.jpg"))
             (Some "14:30:00 05/03/2021");
      mkCard (Some (Some "/i/two.png")) None;
      mkCard (Some (Some "https://media-files3.bunkr.ru/clip.mp4"))
             (Some "23:59:59 01/01/2022") ]
    [] [].

(* a video page whose download link carries no extension *)
Definition video_page : soup :=
  mkSoup None [] [Some "https://media-files.bunkr.ru/clip-Xy12"] [].

Definition get_BS4 (domain : string) (u : URL) : result soup :=
  if String.eqb (path u) "/a/abc123" then inr album_page
  else if String.eqb (path u) "/a/undated" then inr undated_page
  else if Str.startswith "/v/" (path u) then inr video_page
  else inl (OtherError "404").

(* ddg2 is configured empty *)
Definition ddos_guard_values : gmap string pyval :=
  {[ "bunkrr_ddg1" := PyStr "one";
     "bunkrr_ddg2" := PyStr "";
     "bunkrr_ddgid" := PyStr "id" ]}.

Definition auth_all_keys : gmap string (gmap string pyval) :=
  {[ "DDOS-Guard" := ddos_guard_values ]}.

(* the key bunkrr_ddg1 is absent *)
Definition auth_without_ddg1 : gmap string (gmap string pyval) :=
  {[ "DDOS-Guard" :=
       {[ "bunkrr_ddg2" := PyStr "two";
          "bunkrr_ddgid" := PyStr "id" ]} ]}.

Definition item_at (u : URL) : ScrapeItem :=
  mkScrapeItem u "Downloads" false None false None.

(* a crawler that has set no cookie yet, about to work on [it] *)
Definition fresh (auth : gmap string (gmap string pyval)) (it : ScrapeItem)
  : state :=
  mkState it false auth ∅ [] 0 [] [] [].

(* a crawler whose cookies are set *)
Definition primed (it : ScrapeItem) : state :=
  mkState it true auth_all_keys ∅ [] 0 [] [] [].

(* the download link of [video_page] *)
Definition video_link : URL := file_url "media-files.bunkr.ru" "/clip-Xy12".

(* a file page whose download link carries an extension *)
Definition file_page : soup :=
  mkSoup None [] [] [Some "https://media-files.bunkr.ru/report.pdf"].

(* a client that answers every request with [file_page] *)
Definition get_BS4_file (domain : string) (u : URL) : result soup :=
  inr file_page.

(* the download link of [file_page] *)
Definition file_link : URL := file_url "media-files.bunkr.ru" "/report.pdf".

(* an album item that is retried into the folder it had *)
Definition retry_item : ScrapeItem :=
  mkScrapeItem (page_url "/a/abc123") "Downloads/Old album" false None
               true (Some "Downloads/Old album").

End Samples.

(** ** The crawler ([bunkrr_crawler.py]) *)

Section Bunkrr.

(** What the crawler imports from modules that are not among the
    sources: yarl's constructor and quoting ([Url.Library]); the tables [FILE_FORMATS['Images']] and
    [FILE_FORMATS['Videos']], [sanitize_folder] and
    [get_filename_and_ext] of [cyberdrop_dl.utils.utilities]; and, from
    the [Crawler] base class and its client, [create_title], the page
    that [client.get_BS4] returns for a URL, and the exception, if any,
    that [handle_file] ends with. *)
Context `{yarl : !Url.Library}.
Variable FILE_FORMATS_Images FILE_FORMATS_Videos : list string.
Variable sanitize_folder : string -> string.
Variable get_filename_and_ext : string -> result (string * string).
Variable create_title : string -> option string -> option string -> string.
Variable get_BS4 : string -> URL -> result soup.
Variable handle_file_raises :
  URL -> ScrapeItem -> string -> string -> option exn.

(** *** ScrapeItem.add_to_parent_title *)

Definition add_to_parent_title (self : ScrapeItem) (title : string)
  : ScrapeItem :=
  if negb (Str.truthy title) || retry self then self
  else
    let title := sanitize_folder title in
    with_parent_title self
      (if Str.truthy (parent_title self)
       then parent_title self +:+ "/" +:+ title
       else title).

(** *** Crawler attributes set in __init__ *)

Definition domain : string := "bunkrr".

(* URL("https://bunkrr.su") *)
Definition primary_base_domain : URL :=
  mkURL "https" "" (Some "bunkrr.su") "" "" "" "".

(* URL("https://*.bunkrr.su") *)
Definition ddos_guard_domain : URL :=
  mkURL "https" "" (Some "*.bunkrr.su") "" "" "" "".

(** *** get_stream_link *)

(* ^(?:(?:(?:media-files|cdn|c|pizza|cdn-burger)[0-9]{0,2})
     |(?:(?:big-taco-|cdn-pizza|cdn-meatballs|cdn-milkshake)[0-9]{0,2}(?:redir)?))
    \.bunkr?\.[a-z]{2,3}$ *)
Definition cdn_possibilities : Re.regex :=
  let digits := Re.Rep 0 2 (Re.Range "0" "9") in
  Re.Seq
    (Re.Alt
       (Re.Seq
          (Re.Alts [Re.Lit "media-files"; Re.Lit "cdn"; Re.Lit "c";
                    Re.Lit "pizza"; Re.Lit "cdn-burger"])
          digits)
       (Re.Seq
          (Re.Alts [Re.Lit "big-taco-"; Re.Lit "cdn-pizza";
                    Re.Lit "cdn-meatballs"; Re.Lit "cdn-milkshake"])
          (Re.Seq digits (Re.Rep 0 1 (Re.Lit "redir")))))
    (Re.Seq (Re.Lit ".bunk")
       (Re.Seq (Re.Rep 0 1 (Re.Chr "r"))
          (Re.Seq (Re.Chr ".") (Re.Rep 2 3 (Re.Range "a" "z"))))).

(** [re.sub] of the pattern  ^cdn(\d* )\.  by  i\1.  in [h]: the pattern
    is anchored, so at most the start of [h] is replaced; the group
    takes every digit after the letters cdn, and a dot has to follow. *)
Definition image_host (h : string) : string :=
  match Str.strip_prefix "cdn" h with
  | Some rest =>
      let '(digits, rest') := Str.span Str.is_digit rest in
      match rest' with
      | String "." tl => "i" +:+ digits +:+ "." +:+ tl
      | _ => h
      end
  | None => h
  end.

Definition get_stream_link (url : URL) : result URL :=
  match Re.match_opt cdn_possibilities (host url), host url with
  | inl e, _ => inl e
  | inr _, None => inl TypeError
  | inr matched, Some h =>
      if negb matched then inr url
      else
        let ext := Str.lower (Url.suffix url) in
        if String.eqb ext "" then inr url
        else if Str.mem ext FILE_FORMATS_Images then
          Url.with_host url (image_host h)
        else if Str.mem ext FILE_FORMATS_Videos then
          rbind (Url.truediv primary_base_domain "v")
                (fun u => Url.truediv u (Url.last_part url))
        else
          rbind (Url.truediv primary_base_domain "d")
                (fun u => Url.truediv u (Url.last_part url))
  end.

(** The results [get_stream_link] is compared with: [u] under another
    host, and the page of a file on the primary domain. *)
Definition url_with_host (u : URL) (h : string) : URL :=
  mkURL (scheme u) (userinfo u) (Some h) (port u) (path u) (query u) (fragment u).

Definition primary_page (p : string) : URL :=
  mkURL "https" "" (Some "bunkrr.su") "" p "" "".

Definition primary_child (seg nm : string) : URL :=
  mkURL "https" "" (Some "bunkrr.su") "" ("/" +:+ seg +:+ "/" +:+ nm) "" "".

(** [r] is what [primary_base_domain / seg / nm] gives: it raises
    ValueError for a name that starts with a slash, and is a page of the
    primary domain otherwise; the page is /seg/<quoted name> when the
    quoted name has no empty segment, no "." and no "..". *)
Definition child_of_primary (seg nm : string) (r : result URL) : Prop :=
  (Str.startswith "/" nm = true -> r = inl ValueError)
  /\ (Str.startswith "/" nm = false ->
      exists p, r = inr (primary_page p)
                /\ (Url.regular (Str.split "/" (Url.quote nm)) = true ->
                    primary_page p = primary_child seg (Url.quote nm))).

(** The name of the file of [u] is written with letters, digits and
    "-", ".", "_", "~" only: no escape, no slash. *)
Definition plain_name (u : URL) : Prop :=
  Url.all_chars Url.is_unreserved (Url.raw_name u) = true.

(** [h] is the letters cdn, the digits [ds], a dot and [rest]. *)
Definition cdn_numbered (h ds rest : string) : Prop :=
  Url.all_chars Str.is_digit ds = true /\ h = "cdn" +:+ ds +:+ "." +:+ rest.

(** *** parse_datetime *)

Definition parse_datetime (date : string) : result Z :=
  rbind (PyTime.strptime date) (fun date => inr (PyTime.timegm date)).

(** *** set_cookies *)

(* authentication_data[group][key] *)
Definition auth (group key : string) : M pyval := fun s =>
  match authentication_data s !! group with
  | None => (inl (KeyError group), s)
  | Some g =>
      match g !! key with
      | None => (inl (KeyError key), s)
      | Some v => (inr v, s)
      end
  end.

(* cookies.update_cookies({name: v}, response_url=u) *)
Definition update_cookies (name : string) (v : pyval) (u : URL) : M unit :=
  modify (fun s =>
    set_jar s (<[(default "" (host u), name) := v]> (cookies s))).

(* if auth[key]: update_cookies({name: auth[key]}, ddos_guard_domain) *)
Definition prime (key name : string) : M unit :=
  v <~ auth "DDOS-Guard" key ;;
  if truthy v then
    v' <~ auth "DDOS-Guard" key ;;
    update_cookies name v' ddos_guard_domain
  else ret tt.

Definition set_cookies : M unit :=
  fun s =>
    if cookies_set s then (inr tt, s)
    else
      (prime "bunkrr_ddg1" "__ddg1_" ;;;
       prime "bunkrr_ddg2" "__ddg2_" ;;;
       prime "bunkrr_ddgid" "__ddgid_" ;;;
       modify (fun s => set_cookies_set s true)) s.

(** The jar once the cookie [name] of the DDoS-Guard domain has been
    primed with the configured value [v]: a falsy value is skipped. *)
Definition jar_with (name : string) (v : pyval)
  (jar : gmap (string * string) pyval) : gmap (string * string) pyval :=
  if truthy v then <[("*.bunkrr.su", name) := v]> jar else jar.

(** *** Collaborators reached through [self] *)

(** Modelled from the spec: [scraping_progress] belongs to the progress
    manager, which is not among the sources.  Spec 6: "Progress tracker:
    add_task(url) -> task_id, remove_task(task_id)".  Each call is
    recorded; task ids are handed out in order. *)
Definition add_task (u : URL) : M nat := fun s =>
  (inr (next_task s),
   set_progress s (progress s ++ [AddTask u (next_task s)]) (S (next_task s))).

Definition remove_task (task_id : nat) : M unit :=
  modify (fun s => set_progress s (progress s ++ [RemoveTask task_id]) (next_task s)).

(** Modelled from the spec: the work queue is owned by the scrape
    mapper, which is not among the sources.  Spec 6: "Work queue:
    put(scrape_item) - enqueues a new unit of work". *)
Definition scraper_queue_put (it : ScrapeItem) : M unit :=
  modify (fun s => set_queue s (scraper_queue s ++ [it])).

(** Modelled from the spec: [handle_file] is a method of the [Crawler]
    base class, which is not among the sources.  Spec 6: "Download
    dispatcher: handle_file(direct_url, origin_item, filename, ext) -
    accepts a terminal file for the external download subsystem; no
    return value observed by the core".  The call is recorded with its
    arguments; it reads the item and does not change it. *)
Definition handle_file (link : URL) (it : ScrapeItem) (filename ext : string)
  : M unit := fun s =>
  let s' := set_handled s (handled s ++ [(link, it, filename, ext)]) in
  match handle_file_raises link it filename ext with
  | Some e => (inl e, s')
  | None => (inr tt, s')
  end.

(** Modelled from the spec: [error_handling_wrapper] is defined in
    [cyberdrop_dl/utils/utilities.py], which is not among the sources.
    Spec 4.1: "any exception during fetch or its handlers is caught by a
    generic wrapper that logs the failure (with the offending URL and
    origin) and marks the ScrapeItem failed without propagating".  The
    decorated method runs; an exception it ends with is recorded in
    [failures] under the URL the item had when the method was entered,
    and the call returns. *)
Definition error_handling_wrapper (func : M unit) : M unit := fun s =>
  let link := url (item s) in
  match func s with
  | (inl e, s') => (inr tt, set_failures s' (failures s' ++ [(link, e)]))
  | (inr v, s') => (inr v, s')
  end.

(** *** album *)

(* one round of the loop over card_listings *)
Definition album_entry (card_listing : card) : M unit :=
  scrape_item <~ get_item ;;
  let file := card_file card_listing in
  date_text <~ lift (required AttributeError (card_date card_listing)) ;;
  date <~ lift (parse_datetime date_text) ;;
  href <~ lift (required AttributeError file) ;;
  link <~ lift (required AttributeError href) ;;
  link <~ lift
    (if Str.startswith "/" link then
       rbind (required TypeError (host (url scrape_item)))
             (fun h => Url.of_string ("https://" +:+ h +:+ link))
     else Url.of_string link) ;;
  link <~ lift (get_stream_link link) ;;
  scraper_queue_put
    (mkScrapeItem link (parent_title scrape_item) true (Some date) false None).

Definition album_body : M unit :=
  scrape_item <~ get_item ;;
  soup <~ lift (get_BS4 domain (url scrape_item)) ;;
  title <~ lift (required AttributeError (title_text soup)) ;;
  album_id <~ lift (required IndexError (Url.parts (url scrape_item) !! 2%nat)) ;;
  let title := create_title (Str.strip title) (Some album_id) None in
  modify (fun s => set_item s (add_to_parent_title (item s) title)) ;;;
  for_each (card_listings soup) album_entry.

Definition album : M unit := error_handling_wrapper album_body.

(** *** video and other *)

Definition video_body : M unit :=
  scrape_item <~ get_item ;;
  soup <~ lift (get_BS4 domain (url scrape_item)) ;;
  link_container <~ lift (required IndexError (last (blue_anchors soup))) ;;
  link <~ lift (Url.of_attr link_container) ;;
  fe <~ try_except_NoExtensionFailure
          (lift (get_filename_and_ext (Url.name link)))
          (lift (get_filename_and_ext (Url.name (url scrape_item)))) ;;
  handle_file link scrape_item (fst fe) (snd fe).

Definition video : M unit := error_handling_wrapper video_body.

Definition other_body : M unit :=
  scrape_item <~ get_item ;;
  soup <~ lift (get_BS4 domain (url scrape_item)) ;;
  link_container <~ lift (required IndexError (last (white_anchors soup))) ;;
  link <~ lift (Url.of_attr link_container) ;;
  fe <~ try_except_NoExtensionFailure
          (lift (get_filename_and_ext (Url.name link)))
          (lift (get_filename_and_ext (Url.name (url scrape_item)))) ;;
  handle_file link scrape_item (fst fe) (snd fe).

Definition other : M unit := error_handling_wrapper other_body.

(** *** fetch *)

Definition fetch : M unit :=
  scrape_item <~ get_item ;;
  task_id <~ add_task (url scrape_item) ;;
  new_url <~ lift (get_stream_link (url scrape_item)) ;;
  modify (fun s => set_item s (with_url (item s) new_url)) ;;;
  set_cookies ;;;
  scrape_item <~ get_item ;;
  (if Str.mem "a" (Url.parts (url scrape_item)) then album
   else if Str.mem "v" (Url.parts (url scrape_item)) then video
   else other) ;;;
  remove_task task_id.

(** *** What the statements below speak of *)

(** The handler [fetch] picks for a rewritten URL, without its wrapper. *)
Definition handler_body (u : URL) : M unit :=
  if Str.mem "a" (Url.parts u) then album_body
  else if Str.mem "v" (Url.parts u) then video_body
  else other_body.

(** The state in which [fetch] reaches [get_stream_link]: the task is
    registered. *)
Definition registered (s : state) : state :=
  set_progress s (progress s ++ [AddTask (url (item s)) (next_task s)])
               (S (next_task s)).

(** The state in which [fetch] dispatches, when the stream link is [u']. *)
Definition at_dispatch (s : state) (u' : URL) : state :=
  snd (set_cookies (set_item (registered s) (with_url (item s) u'))).

(** The configuration lets [set_cookies] complete: the cookies are set
    already, or the three keys are present. *)
Definition configured (s : state) : Prop :=
  cookies_set s = true
  \/ exists g v1 v2 v3,
       authentication_data s !! "DDOS-Guard" = Some g
       /\ g !! "bunkrr_ddg1" = Some v1
       /\ g !! "bunkrr_ddg2" = Some v2
       /\ g !! "bunkrr_ddgid" = Some v3.

(** A link of a listing entry, resolved against the host of the page. *)
Definition resolve_link (page_host href : string) : result URL :=
  if Str.startswith "/" href
  then Url.of_string ("https://" +:+ page_host +:+ href)
  else Url.of_string href.

(** An entry with an anchor that has a link, and a date element whose
    text is a date; the link resolves to a URL, and [get_stream_link]
    returns for it. *)
Definition well_formed_card (page_host : string) (c : card) : Prop :=
  exists href date_text link,
    card_file c = Some (Some href)
    /\ card_date c = Some date_text
    /\ raised (parse_datetime date_text) = false
    /\ resolve_link page_host href = inr link
    /\ raised (get_stream_link link) = false.

(** [child] is the item the album handler makes of the entry [c] of a
    page of host [page_host], for the album item [it]. *)
Definition entry_of (it : ScrapeItem) (page_host : string) (c : card)
  (child : ScrapeItem) : Prop :=
  exists href date_text link ts,
    card_file c = Some (Some href)
    /\ card_date c = Some date_text
    /\ resolve_link page_host href = inr link
    /\ get_stream_link link = inr (url child)
    /\ parse_datetime date_text = inr ts
    /\ child = mkScrapeItem (url child) (parent_title it) true (Some ts) false None.

(** What a single-file handler [body] does with the link [link] of its
    page when the name of the link has no extension the first time. *)
Definition fallback_outcome (body : M unit) (link : URL) (s : state) : Prop :=
  let it := item s in
  forall e, get_filename_and_ext (Url.name link) = inl e ->
    match e with
    | NoExtensionFailure =>
        match get_filename_and_ext (Url.name (url it)) with
        | inr (filename, ext) =>
            body s = handle_file link it filename ext s
            /\ handled (snd (body s)) = handled s ++ [(link, it, filename, ext)]
        | inl e' => body s = (inl e', s)
        end
    | _ => body s = (inl e, s)
    end.

(** The cookies [set_cookies] writes: the three DDoS-Guard cookies of the
    wildcard domain. *)
Definition ddos_guard_cookie (k : string * string) : Prop :=
  k = ("*.bunkrr.su", "__ddg1_") \/ k = ("*.bunkrr.su", "__ddg2_")
  \/ k = ("*.bunkrr.su", "__ddgid_").

(** What every item the album handler enqueues for the album item [it]
    looks like. *)
Definition enqueued_child (it child : ScrapeItem) : Prop :=
  part_of_album child = true
  /\ retry child = false
  /\ retry_path child = None
  /\ parent_title child = parent_title it
  /\ (exists ts, possible_datetime child = Some ts)
  /\ get_stream_link (url child) = inr (url child).

(** A listing entry the album handler stops at with [e]: it has no date
    element, or a date that does not parse, or a date that parses and no
    anchor or no link on the anchor. *)
Definition broken_entry (c : card) (e : exn) : Prop :=
  match card_date c with
  | None => e = AttributeError
  | Some t =>
      parse_datetime t = inl e
      \/ (raised (parse_datetime t) = false /\ e = AttributeError
          /\ (card_file c = None \/ card_file c = Some None))
  end.

(** * Properties *)

(* a proof depends on the collaborators its statement names, no others *)
Set Default Proof Using "Type".

(* forgets the collaborators a statement does not speak of *)
Ltac standalone := repeat match goal with x : _ |- _ => clear x end.

(** ** Strings and URLs *)

Lemma split_nonempty sep s : Str.split sep s <> [].
Proof.
  destruct s as [|c s]; simpl; [discriminate|].
  destruct (Ascii.eqb c sep); [discriminate|].
  destruct (Str.split sep s); discriminate.
Qed.

Lemma split_without_sep sep s :
  Str.contains sep s = false -> Str.split sep s = [s].
Proof.
  induction s as [|c s IH]; simpl; [reflexivity|].
  intros H; apply orb_false_iff in H as [Hc Hs].
  rewrite Hc, (IH Hs); reflexivity.
Qed.

Lemma no_slash_not_startswith nm :
  Str.contains "/" nm = false -> Str.startswith "/" nm = false.
Proof.
  destruct nm as [|c nm]; [reflexivity|].
  cbn [Str.contains Str.startswith].
  intros H; apply orb_false_iff in H as [Hc _].
  rewrite Ascii.eqb_sym, Hc; reflexivity.
Qed.

(** *** The raw and the decoded views of a URL *)

Lemma unquote_without_percent s :
  Str.contains "%" s = false -> Url.unquote s = s.
Proof. unfold Url.unquote. intros ->. reflexivity. Qed.

Lemma unreserved_no_percent s :
  Url.all_chars Url.is_unreserved s = true -> Str.contains "%" s = false.
Proof.
  induction s as [|c s IH]; [reflexivity|].
  cbn [Url.all_chars Str.contains]. intros H.
  apply andb_true_iff in H as [Hc Hs]. rewrite (IH Hs), orb_false_r.
  destruct (Ascii.eqb_spec c "%") as [->|]; [discriminate Hc | reflexivity].
Qed.

Lemma unreserved_no_slash s :
  Url.all_chars Url.is_unreserved s = true -> Str.contains "/" s = false.
Proof.
  induction s as [|c s IH]; [reflexivity|].
  cbn [Url.all_chars Str.contains]. intros H.
  apply andb_true_iff in H as [Hc Hs]. rewrite (IH Hs), orb_false_r.
  destruct (Ascii.eqb_spec c "/") as [->|]; [discriminate Hc | reflexivity].
Qed.

Lemma quote_unreserved s :
  Url.all_chars Url.is_unreserved s = true -> Url.quote s = s.
Proof.
  intros H. unfold Url.quote.
  assert (Hall : Url.all_chars (fun c => Url.is_unreserved c || Ascii.eqb c "/") s
                 = true).
  { induction s as [|c s IH]; [reflexivity|].
    cbn [Url.all_chars] in *. apply andb_true_iff in H as [Hc Hs].
    rewrite Hc, (IH Hs). reflexivity. }
  rewrite Hall. reflexivity.
Qed.

Lemma last_map {A B} (f : A -> B) (l : list A) (d : A) :
  List.last (map f l) (f d) = f (List.last l d).
Proof.
  induction l as [|a l IH]; [reflexivity|].
  destruct l as [|b l]; [reflexivity|]. exact IH.
Qed.

(** The last part is the unquoted last raw part. *)
Lemma last_part_unquote u :
  Url.last_part u = Url.unquote (List.last (Url.raw_parts u) "").
Proof.
  unfold Url.last_part, Url.parts.
  rewrite <- (last_map Url.unquote). reflexivity.
Qed.

(** With a raw suffix, the last raw part of an absolute URL is its raw
    name, and the name is one segment that is not empty, "." or "..". *)
Lemma raw_suffix_last_part u h :
  host u = Some h -> Url.raw_suffix u <> "" ->
  List.last (Url.raw_parts u) "" = Url.raw_name u
  /\ Url.raw_name u <> "" /\ Url.raw_name u <> "." /\ Url.raw_name u <> "..".
Proof.
  intros Hh Hs.
  assert (Hdots : Url.raw_name u <> "" /\ Url.raw_name u <> "."
                  /\ Url.raw_name u <> "..").
  { repeat split; intros E; apply Hs; unfold Url.raw_suffix; rewrite E;
      reflexivity. }
  split; [|exact Hdots].
  revert Hs. unfold Url.raw_suffix, Url.raw_name, Url.raw_parts, Url.is_absolute.
  rewrite Hh. destruct (path u) as [|c p]; simpl tail.
  - intros Hs; exfalso; apply Hs; reflexivity.
  - pose proof (split_nonempty "/" p) as Hne.
    destruct (Str.split "/" p) as [|w ws] eqn:Hsp; [congruence|].
    intros _. reflexivity.
Qed.

(** The suffix the crawler reads is empty when the raw suffix is. *)
Lemma suffix_raw u : Url.raw_suffix u = "" -> Str.lower (Url.suffix u) = "".
Proof. unfold Url.suffix. intros ->. reflexivity. Qed.

(** For a file whose name is written plainly, the decoded and the raw
    views coincide. *)
Lemma plain_name_views u h :
  host u = Some h -> plain_name u -> Url.raw_suffix u <> "" ->
  Url.last_part u = Url.raw_name u
  /\ Url.name u = Url.raw_name u
  /\ Url.quote (Url.raw_name u) = Url.raw_name u
  /\ Str.split "/" (Url.raw_name u) = [Url.raw_name u].
Proof.
  intros Hh Hplain Hs.
  destruct (raw_suffix_last_part u h Hh Hs) as (Hl & _).
  pose proof (unquote_without_percent _ (unreserved_no_percent _ Hplain)) as Hu.
  repeat split.
  - rewrite last_part_unquote, Hl. exact Hu.
  - exact Hu.
  - apply quote_unreserved, Hplain.
  - apply split_without_sep, unreserved_no_slash, Hplain.
Qed.

(** [primary_base_domain / seg / nm] for seg = "v" or "d" *)
Lemma truediv_primary seg nm :
  seg = "v" \/ seg = "d" ->
  rbind (Url.truediv primary_base_domain seg) (fun u => Url.truediv u nm)
  = if Str.startswith "/" nm then inl ValueError
    else inr (primary_page
                (if Url.regular (Str.split "/" (Url.quote nm))
                 then "/" +:+ seg +:+ "/" +:+ Url.quote nm
                 else Url.join_segments (primary_page ("/" +:+ seg)) nm)).
Proof.
  intros Hseg.
  assert (H1 : Url.truediv primary_base_domain seg
               = inr (primary_page ("/" +:+ seg)))
    by (destruct Hseg as [-> | ->]; reflexivity).
  rewrite H1. cbn [rbind]. unfold Url.truediv.
  destruct (Str.startswith "/" nm); [reflexivity|].
  cbn [path primary_page scheme userinfo host port Url.is_absolute].
  assert (H2 : Url.regular_path ("/" +:+ seg) = true)
    by (destruct Hseg as [-> | ->]; reflexivity).
  assert (H3 : String.eqb ("/" +:+ seg) "" = false) by reflexivity.
  assert (H4 : String.eqb ("/" +:+ seg) "/" = false)
    by (destruct Hseg as [-> | ->]; reflexivity).
  rewrite H2, H3, H4, andb_true_r.
  destruct (Url.regular (Str.split "/" (Url.quote nm))); reflexivity.
Qed.

Lemma truediv_primary_child seg nm :
  seg = "v" \/ seg = "d" ->
  child_of_primary seg nm
    (rbind (Url.truediv primary_base_domain seg) (fun u => Url.truediv u nm)).
Proof.
  intros Hseg. rewrite (truediv_primary seg nm Hseg). split; intros Hsl; rewrite Hsl.
  - reflexivity.
  - eexists. split; [reflexivity|]. intros ->. reflexivity.
Qed.

(** ** get_stream_link *)

Lemma strip_prefix_app p s rest :
  Str.strip_prefix p s = Some rest -> s = p +:+ rest.
Proof.
  revert s; induction p as [|a p IH]; intros s; simpl.
  - intros [= ->]; reflexivity.
  - destruct s as [|b s]; [discriminate|].
    destruct (Ascii.eqb_spec a b) as [->|]; [|discriminate].
    intros H; rewrite (IH _ H); reflexivity.
Qed.

Lemma strip_prefix_here p rest : Str.strip_prefix p (p +:+ rest) = Some rest.
Proof.
  induction p as [|a p IH]; simpl; [reflexivity|].
  rewrite Ascii.eqb_refl; exact IH.
Qed.

Lemma span_app p s a b :
  Str.span p s = (a, b) -> s = a +:+ b /\ Url.all_chars p a = true.
Proof.
  revert a b; induction s as [|c s IH]; simpl; intros a b.
  - intros [= <- <-]; split; reflexivity.
  - destruct (p c) eqn:Hc.
    + destruct (Str.span p s) as [a' b'].
      intros [= <- <-]. destruct (IH _ _ eq_refl) as [-> Ha].
      split; [reflexivity | simpl; rewrite Hc; exact Ha].
    + intros [= <- <-]; split; reflexivity.
Qed.

Lemma span_here p ds c rest :
  Url.all_chars p ds = true -> p c = false ->
  Str.span p (ds +:+ String c rest) = (ds, String c rest).
Proof.
  intros Hds Hc; induction ds as [|d ds IH]; simpl.
  - rewrite Hc; reflexivity.
  - simpl in Hds; apply andb_true_iff in Hds as [Hd Hds].
    rewrite Hd, (IH Hds); reflexivity.
Qed.

Lemma image_host_numbered h ds rest :
  cdn_numbered h ds rest -> image_host h = "i" +:+ ds +:+ "." +:+ rest.
Proof.
  intros [Hds ->]. unfold image_host.
  rewrite strip_prefix_here.
  change (ds +:+ "." +:+ rest) with (ds +:+ String "." rest).
  rewrite (span_here Str.is_digit ds "." rest Hds eq_refl). reflexivity.
Qed.

Lemma image_host_kept h :
  (forall ds rest, ~ cdn_numbered h ds rest) -> image_host h = h.
Proof.
  intros Hno. unfold image_host.
  destruct (Str.strip_prefix "cdn" h) as [r|] eqn:Hp; [|reflexivity].
  destruct (Str.span Str.is_digit r) as [ds r'] eqn:Hsp.
  destruct r' as [|c tl]; [reflexivity|].
  destruct (Ascii.eqb_spec c ".") as [->|Hc].
  - exfalso. apply (Hno ds tl).
    apply strip_prefix_app in Hp. apply span_app in Hsp as [-> Hds].
    split; [exact Hds | exact Hp].
  - destruct c as [[] [] [] [] [] [] [] []]; try reflexivity.
    exfalso; apply Hc; reflexivity.
Qed.

Lemma image_host_truthy h : Str.truthy h = true -> Str.truthy (image_host h) = true.
Proof.
  intros Hh. unfold image_host.
  destruct (Str.strip_prefix "cdn" h); [|exact Hh].
  destruct (Str.span Str.is_digit s) as [ds [|c tl]]; [exact Hh|].
  destruct c as [[] [] [] [] [] [] [] []]; first [exact Hh | reflexivity].
Qed.

Lemma matched_host_truthy h :
  Re.matches cdn_possibilities h = true -> Str.truthy h = true.
Proof. destruct h; [discriminate | reflexivity]. Qed.

Lemma get_stream_link_no_host u :
  host u = None -> get_stream_link u = inl TypeError.
Proof. intros H; unfold get_stream_link; rewrite H; reflexivity. Qed.

Lemma get_stream_link_unmatched u h :
  host u = Some h -> Re.matches cdn_possibilities h = false ->
  get_stream_link u = inr u.
Proof.
  intros H Hm; unfold get_stream_link; rewrite H; simpl; rewrite Hm; reflexivity.
Qed.

Lemma get_stream_link_no_ext u h :
  host u = Some h -> Str.lower (Url.suffix u) = "" ->
  get_stream_link u = inr u.
Proof.
  intros H He; unfold get_stream_link; rewrite H; simpl.
  destruct (Re.matches cdn_possibilities h); [|reflexivity].
  simpl; rewrite He; reflexivity.
Qed.

Lemma get_stream_link_image u h :
  host u = Some h -> Re.matches cdn_possibilities h = true ->
  Str.lower (Url.suffix u) <> "" ->
  Str.mem (Str.lower (Url.suffix u)) FILE_FORMATS_Images = true ->
  get_stream_link u = inr (url_with_host u (image_host h)).
Proof.
  intros H Hm He Hi; unfold get_stream_link; rewrite H; simpl; rewrite Hm; simpl.
  apply String.eqb_neq in He; rewrite He, Hi.
  unfold Url.with_host, Url.is_absolute; rewrite H; simpl.
  rewrite (image_host_truthy _ (matched_host_truthy _ Hm)); reflexivity.
Qed.

Lemma get_stream_link_page u h :
  host u = Some h -> Re.matches cdn_possibilities h = true ->
  Str.lower (Url.suffix u) <> "" ->
  Str.mem (Str.lower (Url.suffix u)) FILE_FORMATS_Images = false ->
  get_stream_link u =
    rbind (Url.truediv primary_base_domain
             (if Str.mem (Str.lower (Url.suffix u)) FILE_FORMATS_Videos
              then "v" else "d"))
          (fun b => Url.truediv b (Url.last_part u)).
Proof.
  intros H Hm He Hi.
  unfold get_stream_link; rewrite H; cbn [Re.match_opt]; rewrite Hm; cbn [negb].
  apply String.eqb_neq in He; rewrite He, Hi.
  destruct (Str.mem (Str.lower (Url.suffix u)) FILE_FORMATS_Videos); reflexivity.
Qed.

Lemma video_or_other (b : bool) :
  (if b then "v" else "d") = "v" \/ (if b then "v" else "d") = "d".
Proof. destruct b; auto. Qed.

(** A file of a CDN host that is no image: the join refuses a last part
    that starts with a slash, and gives a page of the primary domain
    otherwise. *)
Lemma get_stream_link_page_cases u h :
  host u = Some h -> Re.matches cdn_possibilities h = true ->
  Str.lower (Url.suffix u) <> "" ->
  Str.mem (Str.lower (Url.suffix u)) FILE_FORMATS_Images = false ->
  (Str.startswith "/" (Url.last_part u) = true
   /\ get_stream_link u = inl ValueError)
  \/ (Str.startswith "/" (Url.last_part u) = false
      /\ exists p, get_stream_link u = inr (primary_page p)).
Proof.
  intros H Hm He Hi.
  rewrite (get_stream_link_page u h H Hm He Hi).
  rewrite truediv_primary by apply video_or_other.
  destruct (Str.startswith "/" (Url.last_part u)); [left | right]; eauto.
Qed.

(** The same file when its name is written plainly. *)
Lemma get_stream_link_plain u h :
  host u = Some h -> Re.matches cdn_possibilities h = true ->
  Str.lower (Url.suffix u) <> "" ->
  Str.mem (Str.lower (Url.suffix u)) FILE_FORMATS_Images = false ->
  plain_name u ->
  get_stream_link u =
    inr (primary_child
           (if Str.mem (Str.lower (Url.suffix u)) FILE_FORMATS_Videos
            then "v" else "d")
           (Url.raw_name u)).
Proof.
  intros H Hm He Hi Hplain.
  assert (Hs : Url.raw_suffix u <> "")
    by (intros E; apply He, suffix_raw, E).
  destruct (plain_name_views u h H Hplain Hs) as (Hl & _ & Hq & Hsp).
  destruct (raw_suffix_last_part u h H Hs) as (_ & Hn0 & Hn1 & Hn2).
  rewrite (get_stream_link_page u h H Hm He Hi).
  rewrite truediv_primary by apply video_or_other.
  rewrite Hl, (no_slash_not_startswith _ (unreserved_no_slash _ Hplain)), Hq, Hsp.
  apply String.eqb_neq in Hn0, Hn1, Hn2.
  cbn [Url.regular forallb]. rewrite Hn0, Hn1, Hn2. reflexivity.
Qed.

(** A URL with a host has a stream link, and it has a host, unless it
    is a file of a CDN host, no image, whose last part starts with a
    slash: then the join raises ValueError. *)
Lemma get_stream_link_with_host u h :
  host u = Some h ->
  (exists u', get_stream_link u = inr u' /\ host u' <> None)
  \/ (get_stream_link u = inl ValueError
      /\ Re.matches cdn_possibilities h = true
      /\ Str.lower (Url.suffix u) <> ""
      /\ Str.mem (Str.lower (Url.suffix u)) FILE_FORMATS_Images = false
      /\ Str.startswith "/" (Url.last_part u) = true).
Proof.
  intros H.
  destruct (Re.matches cdn_possibilities h) eqn:Hm.
  2:{ left. exists u; split; [eapply get_stream_link_unmatched; eauto | congruence]. }
  destruct (String.eqb_spec (Str.lower (Url.suffix u)) "") as [He|He].
  { left. exists u; split; [eapply get_stream_link_no_ext; eauto | congruence]. }
  destruct (Str.mem (Str.lower (Url.suffix u)) FILE_FORMATS_Images) eqn:Hi.
  - left. eexists; split; [eapply get_stream_link_image; eauto | discriminate].
  - destruct (get_stream_link_page_cases u h H Hm He Hi) as [[Hsl Hg] | [Hsl [p Hg]]].
    + right. auto.
    + left. eexists; split; [exact Hg | discriminate].
Qed.

(** C10.  [get_stream_link] needs a URL with a host: without one the
    match of the host pattern raises TypeError, and the URL is not
    returned; with a host that the pattern does not match, the URL is
    returned as it is. *)
Theorem get_stream_link_needs_host (u : URL) :
  (host u = None -> get_stream_link u = inl TypeError)
  /\ (forall h, host u = Some h ->
               Re.matches cdn_possibilities h = false ->
               get_stream_link u = inr u).
Proof.
  split; [apply get_stream_link_no_host | apply get_stream_link_unmatched].
Qed.

(** C4 (as amended).  For a URL with host [h]: a host the CDN pattern
    does not match, or a path without extension, gives the URL back;
    an image extension gives the same URL under [image_host h], which
    is i<digits>.<rest> when [h] is cdn<digits>.<rest> and is [h] itself
    for every other matched host; a video extension (that is not also
    an image extension) gives [primary_base_domain / "v" / parts[-1]]
    and any other extension [primary_base_domain / "d" / parts[-1]],
    where [parts[-1]] is the decoded last part: the join raises
    ValueError when that part starts with a slash, it is the page
    /v/<quoted last part> (or /d/...) when the quoted part has only
    regular segments, and it is /v/<name> (or /d/<name>) for a name
    written plainly. *)
Theorem get_stream_link_cases (u : URL) (h : string) :
  host u = Some h ->
  let ext := Str.lower (Url.suffix u) in
  (Re.matches cdn_possibilities h = false -> get_stream_link u = inr u)
  /\ (Re.matches cdn_possibilities h = true ->
      (ext = "" -> get_stream_link u = inr u)
      /\ (ext <> "" -> Str.mem ext FILE_FORMATS_Images = true ->
          get_stream_link u = inr (url_with_host u (image_host h))
          /\ (forall ds rest, cdn_numbered h ds rest ->
                 image_host h = "i" +:+ ds +:+ "." +:+ rest)
          /\ ((forall ds rest, ~ cdn_numbered h ds rest) -> image_host h = h))
      /\ (ext <> "" -> Str.mem ext FILE_FORMATS_Images = false ->
          Str.mem ext FILE_FORMATS_Videos = true ->
          child_of_primary "v" (Url.last_part u) (get_stream_link u)
          /\ (plain_name u ->
              get_stream_link u = inr (primary_child "v" (Url.raw_name u))))
      /\ (ext <> "" -> Str.mem ext FILE_FORMATS_Images = false ->
          Str.mem ext FILE_FORMATS_Videos = false ->
          child_of_primary "d" (Url.last_part u) (get_stream_link u)
          /\ (plain_name u ->
              get_stream_link u = inr (primary_child "d" (Url.raw_name u))))).
Proof.
  intros Hh ext. split; [apply get_stream_link_unmatched; exact Hh|].
  intros Hm.
  split; [intros He; eapply get_stream_link_no_ext; eauto|].
  split.
  { intros He Hi. split; [eapply get_stream_link_image; eauto|].
    split; [apply image_host_numbered | apply image_host_kept]. }
  split; intros He Hi Hv.
  - split.
    + rewrite (get_stream_link_page u h Hh Hm He Hi). fold ext. rewrite Hv.
      apply truediv_primary_child. left; reflexivity.
    + intros Hplain.
      rewrite (get_stream_link_plain u h Hh Hm He Hi Hplain). fold ext.
      rewrite Hv. reflexivity.
  - split.
    + rewrite (get_stream_link_page u h Hh Hm He Hi). fold ext. rewrite Hv.
      apply truediv_primary_child. right; reflexivity.
    + intros Hplain.
      rewrite (get_stream_link_plain u h Hh Hm He Hi Hplain). fold ext.
      rewrite Hv. reflexivity.
Qed.

(** ** add_to_parent_title *)

(** C3.  [add_to_parent_title] leaves a retry item as it is, leaves the
    item as it is for an empty title, and otherwise sets [parent_title]
    to old + "/" + sanitize(title), or to sanitize(title) when the old
    title is empty. *)
Theorem add_to_parent_title_spec (s : ScrapeItem) (t : string) :
  (retry s = true -> add_to_parent_title s t = s)
  /\ (t = "" -> add_to_parent_title s t = s)
  /\ (retry s = false -> t <> "" ->
      (parent_title s <> "" ->
       parent_title (add_to_parent_title s t)
       = parent_title s +:+ "/" +:+ sanitize_folder t)
      /\ (parent_title s = "" ->
          parent_title (add_to_parent_title s t) = sanitize_folder t)).
Proof.
  unfold add_to_parent_title. repeat split.
  - intros ->. rewrite orb_true_r. reflexivity.
  - intros ->. reflexivity.
  - destruct t; [congruence|]. rewrite H. simpl.
    destruct (parent_title s); [congruence | reflexivity].
  - destruct t; [congruence|]. rewrite H. simpl.
    intros ->. reflexivity.
Qed.

(** ** parse_datetime *)

(** Walks through the values 0, 1, ..., count - 1 of a bounded number. *)
Ltac enum_Z_go n count tac :=
  let i := fresh "i" in
  let Hi := fresh "Hi" in
  assert (exists i : nat, n = Z.of_nat i) as [i Hi]
    by (exists (Z.to_nat n); lia);
  subst n;
  do count (destruct i as [|i]; [ first [ tac | exfalso; lia ] | ]);
  exfalso; lia.

Tactic Notation "enum_Z" constr(n) integer(count) tactic3(tac) :=
  enum_Z_go n count tac.

Lemma lit_rejects_digit {A} (sep : ascii) (k : PyTime.parser A) :
  Str.is_digit sep = false ->
  PyTime.rejects_digit (PyTime.pbind (PyTime.lit sep) (fun _ => k)).
Proof.
  intros Hsep c s Hc. unfold PyTime.pbind, PyTime.lit.
  destruct (Ascii.eqb_spec sep c) as [->|]; [congruence | reflexivity].
Qed.

Lemma spaces1_rejects_digit {A} (k : PyTime.parser A) :
  PyTime.rejects_digit (PyTime.pbind PyTime.spaces1 (fun _ => k)).
Proof.
  intros c s Hc. unfold PyTime.pbind, PyTime.spaces1.
  destruct c as [[] [] [] [] [] [] [] []]; try discriminate Hc; reflexivity.
Qed.

Ltac run_field Hk :=
  unfold PyTime.pbind;
  match goal with
  | |- flat_map _ ?l = _ => let l' := eval cbv in l in change l with l'
  end;
  cbn [flat_map app]; rewrite ?Hk by reflexivity;
  cbn [app]; rewrite ?app_nil_r; reflexivity.

Section Fields.
Context {A : Type} (k : Z -> PyTime.parser A) (rest : string).
Hypothesis Hk :
  forall v c s, Str.is_digit c = true -> k v (String c s) = [].
Import PyTime.

Lemma parse_hour n : 0 <= n <= 23 ->
  pbind p_H k (two_digits n rest) = k n rest.
Proof using Hk. intros Hn. enum_Z n 24 ltac:(run_field Hk). Qed.

Lemma parse_minute n : 0 <= n <= 59 ->
  pbind p_M k (two_digits n rest) = k n rest.
Proof using Hk. intros Hn. enum_Z n 60 ltac:(run_field Hk). Qed.

Lemma parse_second n : 0 <= n <= 59 ->
  pbind p_S k (two_digits n rest) = k n rest.
Proof using Hk. intros Hn. enum_Z n 60 ltac:(run_field Hk). Qed.

Lemma parse_day n : 1 <= n <= 31 ->
  pbind p_d k (two_digits n rest) = k n rest.
Proof using Hk. intros Hn. enum_Z n 32 ltac:(run_field Hk). Qed.

Lemma parse_month n : 1 <= n <= 12 ->
  pbind p_m k (two_digits n rest) = k n rest.
Proof using Hk. intros Hn. enum_Z n 13 ltac:(run_field Hk). Qed.
End Fields.

Lemma parse_two_digits n rest : 0 <= n <= 99 ->
  PyTime.two PyTime.dig PyTime.dig (PyTime.two_digits n rest) = [(n, rest)].
Proof. intros Hn. enum_Z n 100 ltac:(reflexivity). Qed.

Lemma parse_space {A} (k : PyTime.parser A) n rest : 0 <= n <= 99 ->
  PyTime.pbind PyTime.spaces1 (fun _ => k)
    (String " " (PyTime.two_digits n rest))
  = k (PyTime.two_digits n rest).
Proof.
  intros Hn. enum_Z n 100 ltac:(run_field I).
Qed.

Lemma parse_year n rest : 0 <= n <= 9999 ->
  PyTime.p_Y (PyTime.two_digits (n / 100) (PyTime.two_digits (n mod 100) rest))
  = [(n, rest)].
Proof.
  standalone. intros Hn. unfold PyTime.p_Y, PyTime.pbind.
  rewrite parse_two_digits by (Z.div_mod_to_equations; lia).
  cbn [flat_map]. rewrite parse_two_digits by (Z.div_mod_to_equations; lia).
  cbn [flat_map app]. unfold PyTime.pret.
  rewrite <- Z.div_mod by lia. reflexivity.
Qed.

(** *** The epoch of a date *)

Lemma days_before_year_succ y :
  PyTime.days_before_year (y + 1) - PyTime.days_before_year y
  = PyTime.year_length y.
Proof.
  unfold PyTime.days_before_year, PyTime.year_length, PyTime.is_leap.
  replace (y + 1 - 1) with y by lia.
  destruct (Z.eqb_spec (y mod 4) 0), (Z.eqb_spec (y mod 100) 0),
           (Z.eqb_spec (y mod 400) 0); cbn [andb orb negb];
    Z.div_mod_to_equations; lia.
Qed.

Lemma years_from_diff n : forall a,
  PyTime.years_from a n
  = PyTime.days_before_year (a + Z.of_nat n) - PyTime.days_before_year a.
Proof.
  induction n as [|n IH]; intros a.
  - cbn [PyTime.years_from]. replace (a + Z.of_nat 0) with a by lia. lia.
  - cbn [PyTime.years_from]. rewrite IH.
    replace (a + 1 + Z.of_nat n) with (a + Z.of_nat (S n)) by lia.
    pose proof (days_before_year_succ a). lia.
Qed.

Lemma months_from_before y m : 1 <= m <= 12 ->
  PyTime.months_from y 1 (Z.to_nat (m - 1)) = PyTime.days_before_month y m.
Proof.
  intros Hm. unfold PyTime.days_before_month.
  enum_Z m 13 ltac:(destruct (PyTime.is_leap y) eqn:E; cbv - [PyTime.is_leap];
                 rewrite ?E; reflexivity).
Qed.

Lemma days_in_month_le y m : 1 <= m <= 12 -> PyTime.days_in_month y m <= 31.
Proof.
  intros Hm. unfold PyTime.days_in_month.
  enum_Z m 13 ltac:(destruct (PyTime.is_leap y); cbv; discriminate).
Qed.

(** [calendar.timegm] counts what [unix_epoch] counts. *)
Lemma timegm_unix_epoch dt :
  1 <= month dt <= 12 -> PyTime.timegm dt = PyTime.unix_epoch dt.
Proof.
  intros Hm. unfold PyTime.timegm, PyTime.unix_epoch, PyTime.days_since_epoch,
    PyTime.ymd2ord.
  rewrite (months_from_before _ _ Hm).
  change PyTime.EPOCH_ORD with (PyTime.days_before_year 1970 + 1).
  destruct (Z.leb_spec 1970 (year dt)).
  - rewrite years_from_diff.
    replace (1970 + Z.of_nat (Z.to_nat (year dt - 1970))) with (year dt) by lia.
    lia.
  - rewrite years_from_diff.
    replace (year dt + Z.of_nat (Z.to_nat (1970 - year dt))) with 1970 by lia.
    lia.
Qed.

Lemma valid_bounds dt : PyTime.valid dt = true ->
  1 <= year dt <= 9999 /\ 1 <= month dt <= 12 /\ 1 <= day dt <= 31
  /\ 0 <= hour dt <= 23 /\ 0 <= minute dt <= 59 /\ 0 <= second dt <= 59.
Proof.
  unfold PyTime.valid. rewrite !andb_true_iff, !Z.leb_le.
  intros (((((((((((? & ?) & ?) & ?) & ?) & Hd) & ?) & ?) & ?) & ?) & ?) & ?).
  assert (PyTime.days_in_month (year dt) (month dt) <= 31)
    by (apply days_in_month_le; lia).
  lia.
Qed.

Lemma strptime_valid s dt : PyTime.strptime s = inr dt -> PyTime.valid dt = true.
Proof.
  unfold PyTime.strptime.
  destruct (PyTime.format_regex s) as [|[dt' [|c r]] l]; try discriminate.
  destruct (PyTime.valid dt') eqn:E; [|discriminate].
  intros [= <-]. exact E.
Qed.

(** A date written in the format is read back as that date. *)
Lemma strptime_render dt :
  PyTime.valid dt = true -> PyTime.strptime (PyTime.render dt) = inr dt.
Proof.
  intros Hv. pose proof (valid_bounds dt Hv) as (HY & Hm & Hd & HH & HM & HS).
  assert (Hparse : PyTime.format_regex (PyTime.render dt) = [(dt, "")]).
  { unfold PyTime.format_regex, PyTime.render.
    rewrite parse_hour by first [lia | intros v; apply lit_rejects_digit; reflexivity].
    unfold PyTime.pbind at 1. cbn [PyTime.lit]. rewrite Ascii.eqb_refl.
    cbn [flat_map]. rewrite app_nil_r.
    rewrite parse_minute by first [lia | intros v; apply lit_rejects_digit; reflexivity].
    unfold PyTime.pbind at 1. cbn [PyTime.lit]. rewrite Ascii.eqb_refl.
    cbn [flat_map]. rewrite app_nil_r.
    rewrite parse_second by first [lia | intros v; apply spaces1_rejects_digit].
    rewrite parse_space by lia.
    rewrite parse_day by first [lia | intros v; apply lit_rejects_digit; reflexivity].
    unfold PyTime.pbind at 1. cbn [PyTime.lit]. rewrite Ascii.eqb_refl.
    cbn [flat_map]. rewrite app_nil_r.
    rewrite parse_month by first [lia | intros v; apply lit_rejects_digit; reflexivity].
    unfold PyTime.pbind at 1. cbn [PyTime.lit]. rewrite Ascii.eqb_refl.
    cbn [flat_map]. rewrite app_nil_r.
    unfold PyTime.pbind. rewrite parse_year by lia.
    cbn [flat_map]. unfold PyTime.pret. rewrite app_nil_r.
    destruct dt; reflexivity. }
  unfold PyTime.strptime. rewrite Hparse, Hv. reflexivity.
Qed.

(** C7.  [parse_datetime] reads HH:MM:SS DD/MM/YYYY as a UTC time and
    returns its Unix epoch: whatever date the text is read as, the
    result is the epoch of that date; every date written in the format
    is read as that date; and "14:30:00 05/03/2021" gives 1614954600,
    the epoch of 2021-03-05T14:30:00Z. *)
Theorem parse_datetime_epoch :
  (forall s dt, PyTime.strptime s = inr dt ->
                parse_datetime s = inr (PyTime.unix_epoch dt))
  /\ (forall dt, PyTime.valid dt = true ->
                parse_datetime (PyTime.render dt) = inr (PyTime.unix_epoch dt))
  /\ parse_datetime "14:30:00 05/03/2021" = inr 1614954600
  /\ PyTime.unix_epoch (mkDatetime 2021 3 5 14 30 0) = 1614954600.
Proof.
  standalone.
  assert (H1 : forall s dt, PyTime.strptime s = inr dt ->
                 parse_datetime s = inr (PyTime.unix_epoch dt)).
  { intros s dt Hs. unfold parse_datetime. rewrite Hs. cbn [rbind].
    rewrite timegm_unix_epoch; [reflexivity|].
    apply strptime_valid, valid_bounds in Hs. tauto. }
  split; [exact H1|]. split.
  - intros dt Hv. apply H1, strptime_render, Hv.
  - split; reflexivity.
Qed.

(** ** Frames: what a computation leaves alone *)

Lemma keeps_ret {A B} (f : state -> B) (a : A) : keeps f (ret a).
Proof. intros s; reflexivity. Qed.

Lemma keeps_lift {A B} (f : state -> B) (r : result A) : keeps f (lift r).
Proof. intros s; reflexivity. Qed.

Lemma keeps_get_item {B} (f : state -> B) : keeps f get_item.
Proof. intros s; reflexivity. Qed.

Lemma keeps_modify {B} (f : state -> B) g :
  (forall s, f (g s) = f s) -> keeps f (modify g).
Proof. intros H s; apply H. Qed.

Lemma keeps_bind {A A' B} (f : state -> B) (c : M A) (k : A -> M A') :
  keeps f c -> (forall a, keeps f (k a)) -> keeps f (bind c k).
Proof.
  intros Hc Hk s. unfold bind. specialize (Hc s).
  destruct (c s) as [[e|a] s']; cbn [snd] in *; [exact Hc|].
  rewrite (Hk a s'). exact Hc.
Qed.

Lemma keeps_if {A B} (f : state -> B) (b : bool) (c1 c2 : M A) :
  keeps f c1 -> keeps f c2 -> keeps f (if b then c1 else c2).
Proof. destruct b; auto. Qed.

Lemma keeps_for_each {A B} (f : state -> B) (xs : list A) body :
  (forall x, keeps f (body x)) -> keeps f (for_each xs body).
Proof.
  intros H; induction xs as [|x xs IH]; cbn [for_each].
  - apply keeps_ret.
  - apply keeps_bind; auto.
Qed.

Lemma keeps_try {A B} (f : state -> B) (body handler : M A) :
  keeps f body -> keeps f handler ->
  keeps f (try_except_NoExtensionFailure body handler).
Proof.
  intros Hb Hh s. unfold try_except_NoExtensionFailure. specialize (Hb s).
  destruct (body s) as [[e|a] s']; cbn [snd] in *; [|exact Hb].
  destruct e; try exact Hb. rewrite (Hh s'). exact Hb.
Qed.

Lemma keeps_wrapper {B} (f : state -> B) (func : M unit) :
  (forall s x, f (set_failures s x) = f s) ->
  keeps f func -> keeps f (error_handling_wrapper func).
Proof.
  intros Hf Hc s. unfold error_handling_wrapper. specialize (Hc s).
  destruct (func s) as [[e|a] s']; cbn [snd] in *; [|exact Hc].
  rewrite Hf. exact Hc.
Qed.

Lemma keeps_handle_file {B} (f : state -> B) link it filename ext :
  (forall s x, f (set_handled s x) = f s) ->
  keeps f (handle_file link it filename ext).
Proof.
  intros Hf s. unfold handle_file.
  destruct (handle_file_raises link it filename ext); apply Hf.
Qed.

Lemma wrapper_returns (func : M unit) s :
  fst (error_handling_wrapper func s) = inr tt.
Proof.
  unfold error_handling_wrapper.
  destruct (func s) as [[e|[]] s']; reflexivity.
Qed.

(** ** set_cookies *)

Lemma set_jar_same s : set_jar s (cookies s) = s.
Proof. destruct s; reflexivity. Qed.

(** One step of priming, by cases on the configured value. *)
Lemma prime_run key name s :
  prime key name s =
    match authentication_data s !! "DDOS-Guard" with
    | None => (inl (KeyError "DDOS-Guard"), s)
    | Some g =>
        match g !! key with
        | None => (inl (KeyError key), s)
        | Some v => (inr tt, set_jar s (jar_with name v (cookies s)))
        end
    end.
Proof.
  unfold prime, bind, auth, update_cookies, modify, jar_with, ret.
  destruct (authentication_data s !! "DDOS-Guard") as [g|] eqn:Hg; [|reflexivity].
  destruct (g !! key) as [v|] eqn:Hv; [|reflexivity].
  destruct (truthy v).
  - rewrite Hg, Hv. reflexivity.
  - rewrite set_jar_same. reflexivity.
Qed.

(** The whole of [set_cookies], by cases on the flag and on the
    configuration. *)
Lemma set_cookies_run s :
  set_cookies s =
    if cookies_set s then (inr tt, s)
    else
      match authentication_data s !! "DDOS-Guard" with
      | None => (inl (KeyError "DDOS-Guard"), s)
      | Some g =>
          match g !! "bunkrr_ddg1" with
          | None => (inl (KeyError "bunkrr_ddg1"), s)
          | Some v1 =>
              let j1 := jar_with "__ddg1_" v1 (cookies s) in
              match g !! "bunkrr_ddg2" with
              | None => (inl (KeyError "bunkrr_ddg2"), set_jar s j1)
              | Some v2 =>
                  let j2 := jar_with "__ddg2_" v2 j1 in
                  match g !! "bunkrr_ddgid" with
                  | None => (inl (KeyError "bunkrr_ddgid"), set_jar s j2)
                  | Some v3 =>
                      (inr tt,
                       set_cookies_set
                         (set_jar s (jar_with "__ddgid_" v3 j2)) true)
                  end
              end
          end
      end.
Proof.
  unfold set_cookies. destruct (cookies_set s); [reflexivity|].
  unfold bind at 1. rewrite prime_run.
  destruct (authentication_data s !! "DDOS-Guard") as [g|] eqn:Hg; [|reflexivity].
  destruct (g !! "bunkrr_ddg1") as [v1|]; [|reflexivity].
  unfold bind at 1. rewrite prime_run. cbn [authentication_data set_jar cookies].
  rewrite Hg.
  destruct (g !! "bunkrr_ddg2") as [v2|]; [|reflexivity].
  unfold bind at 1. rewrite prime_run. cbn [authentication_data set_jar cookies].
  rewrite Hg.
  destruct (g !! "bunkrr_ddgid") as [v3|]; reflexivity.
Qed.


(** ** Frames of the handlers *)

Lemma add_to_parent_title_shape it t :
  add_to_parent_title it t
  = with_parent_title it (parent_title (add_to_parent_title it t)).
Proof.
  unfold add_to_parent_title.
  destruct (negb (Str.truthy t) || retry it); destruct it; reflexivity.
Qed.

Ltac keeps_step :=
  first [ apply keeps_get_item | apply keeps_lift | apply keeps_ret
        | apply keeps_bind | apply keeps_for_each | apply keeps_try
        | apply keeps_if | apply keeps_handle_file | apply keeps_modify
        | assumption
        | match goal with |- forall _, keeps _ _ => intro end ].

Section Frame.
Context {B : Type} (f : state -> B).

Lemma keeps_album_entry c :
  (forall s q, f (set_queue s q) = f s) -> keeps f (album_entry c).
Proof.
  intros Hq. unfold album_entry, scraper_queue_put.
  repeat keeps_step. intros s. apply Hq.
Qed.

Lemma keeps_album_body :
  (forall s q, f (set_queue s q) = f s) ->
  (forall s t, f (set_item s (with_parent_title (item s) t)) = f s) ->
  keeps f album_body.
Proof.
  intros Hq Ht. unfold album_body.
  repeat first [ apply keeps_album_entry | keeps_step ].
  intros s. rewrite add_to_parent_title_shape. apply Ht.
Qed.

Lemma keeps_video_body :
  (forall s x, f (set_handled s x) = f s) -> keeps f video_body.
Proof. intros Hh. unfold video_body. repeat keeps_step. Qed.

Lemma keeps_other_body :
  (forall s x, f (set_handled s x) = f s) -> keeps f other_body.
Proof. intros Hh. unfold other_body. repeat keeps_step. Qed.

Lemma keeps_handler_body u :
  (forall s q, f (set_queue s q) = f s) ->
  (forall s t, f (set_item s (with_parent_title (item s) t)) = f s) ->
  (forall s x, f (set_handled s x) = f s) ->
  keeps f (handler_body u).
Proof.
  intros Hq Ht Hh. unfold handler_body.
  repeat apply keeps_if;
    auto using keeps_album_body, keeps_video_body, keeps_other_body.
Qed.

Lemma keeps_set_cookies :
  (forall s j, f (set_jar s j) = f s) ->
  (forall s b, f (set_cookies_set s b) = f s) ->
  keeps f set_cookies.
Proof.
  intros Hj Hb s. rewrite set_cookies_run.
  repeat case_match; cbn [snd]; rewrite ?Hb, ?Hj; reflexivity.
Qed.

End Frame.

(** ** fetch, step by step *)

Lemma wrapper_run (func : M unit) s :
  error_handling_wrapper func s =
    (inr tt,
     match fst (func s) with
     | inl e => set_failures (snd (func s))
                  (failures (snd (func s)) ++ [(url (item s), e)])
     | inr _ => snd (func s)
     end).
Proof.
  unfold error_handling_wrapper.
  destruct (func s) as [[e|[]] s']; reflexivity.
Qed.

Lemma fetch_dispatch u :
  (if Str.mem "a" (Url.parts u) then album
   else if Str.mem "v" (Url.parts u) then video else other)
  = error_handling_wrapper (handler_body u).
Proof.
  unfold handler_body, album, video, other.
  destruct (Str.mem "a" (Url.parts u)), (Str.mem "v" (Url.parts u)); reflexivity.
Qed.

Lemma set_cookies_item s : item (snd (set_cookies s)) = item s.
Proof. apply (keeps_set_cookies item); reflexivity. Qed.

(** The three ways a call of [fetch] goes. *)
Lemma fetch_run s :
  fetch s =
    match get_stream_link (url (item s)) with
    | inl e => (inl e, registered s)
    | inr u' =>
        let s2 := set_item (registered s) (with_url (item s) u') in
        match fst (set_cookies s2) with
        | inl e => (inl e, snd (set_cookies s2))
        | inr _ =>
            let s4 := snd (error_handling_wrapper (handler_body u')
                             (at_dispatch s u')) in
            (inr tt,
             set_progress s4 (progress s4 ++ [RemoveTask (next_task s)])
                          (next_task s4))
        end
    end.
Proof.
  unfold fetch, at_dispatch, bind.
  cbn [get_item add_task lift]. fold (registered s).
  destruct (get_stream_link (url (item s))) as [e|u']; [reflexivity|].
  cbn [modify]. cbn [item registered set_progress]. cbv zeta.
  set (s2 := set_item _ (with_url (item s) u')).
  pose proof (set_cookies_item s2) as Hu.
  destruct (set_cookies s2) as [[e|[]] s3]; cbn [fst snd] in *; [reflexivity|].
  rewrite Hu. subst s2. cbn [item set_item url with_url].
  rewrite fetch_dispatch, wrapper_run. cbn [remove_task modify fst snd].
  reflexivity.
Qed.

Lemma set_cookies_fst s s' :
  cookies_set s' = cookies_set s ->
  authentication_data s' = authentication_data s ->
  fst (set_cookies s') = fst (set_cookies s).
Proof.
  intros Hc Ha. rewrite !set_cookies_run, Hc, Ha.
  repeat case_match; reflexivity.
Qed.

Lemma configured_returns s : configured s -> fst (set_cookies s) = inr tt.
Proof.
  rewrite set_cookies_run.
  intros [Hc | (g & v1 & v2 & v3 & Hg & H1 & H2 & H3)].
  - rewrite Hc. reflexivity.
  - rewrite Hg, H1, H2, H3. destruct (cookies_set s); reflexivity.
Qed.

Lemma at_dispatch_item s u' : item (at_dispatch s u') = with_url (item s) u'.
Proof. unfold at_dispatch. rewrite set_cookies_item. reflexivity. Qed.

Lemma at_dispatch_progress s u' :
  progress (at_dispatch s u') = progress s ++ [AddTask (url (item s)) (next_task s)]
  /\ next_task (at_dispatch s u') = S (next_task s)
  /\ failures (at_dispatch s u') = failures s.
Proof.
  unfold at_dispatch. repeat split.
  - rewrite (keeps_set_cookies progress); reflexivity.
  - rewrite (keeps_set_cookies next_task); reflexivity.
  - rewrite (keeps_set_cookies failures); reflexivity.
Qed.

Lemma keeps_wrapped_handler {B} (f : state -> B) u :
  (forall s q, f (set_queue s q) = f s) ->
  (forall s t, f (set_item s (with_parent_title (item s) t)) = f s) ->
  (forall s x, f (set_handled s x) = f s) ->
  (forall s x, f (set_failures s x) = f s) ->
  keeps f (error_handling_wrapper (handler_body u)).
Proof.
  intros Hq Ht Hh Hf. apply keeps_wrapper; [exact Hf|].
  apply keeps_handler_body; assumption.
Qed.

(** C2 (as amended).  [fetch] registers the item once, at entry, and
    deregisters it once, with the task id it was given, exactly when the
    call returns; the call returns unless [get_stream_link] or
    [set_cookies] raises, and then the task stays registered.  A failure
    inside a handler does not keep the task from being removed. *)
Theorem fetch_progress_calls (s : state) :
  progress (snd (fetch s))
  = progress s
    ++ AddTask (url (item s)) (next_task s)
       :: (if raised (fst (fetch s)) then [] else [RemoveTask (next_task s)])
  /\ raised (fst (fetch s))
     = raised (get_stream_link (url (item s))) || raised (fst (set_cookies s)).
Proof.
  rewrite fetch_run.
  destruct (get_stream_link (url (item s))) as [e|u']; [split; reflexivity|].
  cbv zeta. set (s2 := set_item (registered s) (with_url (item s) u')).
  assert (Hfst : fst (set_cookies s2) = fst (set_cookies s))
    by (apply set_cookies_fst; reflexivity).
  rewrite <- Hfst.
  destruct (fst (set_cookies s2)) as [e|[]] eqn:Hc; cbn [fst snd raised orb].
  - split; [|reflexivity].
    rewrite (keeps_set_cookies progress); reflexivity.
  - split; [|reflexivity]. cbn [progress set_progress].
    rewrite (keeps_wrapped_handler progress) by reflexivity.
    destruct (at_dispatch_progress s u') as (-> & _ & _).
    rewrite <- app_assoc. reflexivity.
Qed.

(** C1 (as amended).  [fetch] catches what its handler raises and
    nothing else.  When [get_stream_link] returns for the URL of the item
    and the configuration lets [set_cookies] complete, [fetch] returns
    whatever the handler does: an exception of the handler is logged
    once, under the URL of the item, and goes no further.  An exception
    of [get_stream_link] or of [set_cookies] leaves [fetch] as it is, and
    nothing is logged. *)
Theorem fetch_swallows_handler_failures (s : state) :
  (forall u', get_stream_link (url (item s)) = inr u' ->
     configured s ->
     fst (fetch s) = inr tt
     /\ url (item (snd (fetch s))) = u'
     /\ failures (snd (fetch s))
        = failures s
          ++ match fst (handler_body u' (at_dispatch s u')) with
             | inl e => [(u', e)]
             | inr _ => []
             end)
  /\ (forall e, get_stream_link (url (item s)) = inl e ->
        fst (fetch s) = inl e /\ failures (snd (fetch s)) = failures s)
  /\ (forall u' e, get_stream_link (url (item s)) = inr u' ->
        fst (set_cookies s) = inl e ->
        fst (fetch s) = inl e /\ failures (snd (fetch s)) = failures s).
Proof.
  split; [|split].
  - intros u' Hu' Hcfg.
    rewrite fetch_run, Hu'. cbv zeta.
    set (s2 := set_item (registered s) (with_url (item s) u')).
    assert (Hfst : fst (set_cookies s2) = inr tt).
    { rewrite (set_cookies_fst s s2) by reflexivity. apply configured_returns, Hcfg. }
    rewrite Hfst. cbn [fst snd]. split; [reflexivity|].
    cbn [item failures set_progress]. split.
    + rewrite (keeps_wrapped_handler (fun s => url (item s))) by reflexivity.
      rewrite at_dispatch_item. reflexivity.
    + rewrite wrapper_run. cbn [snd].
      pose proof (keeps_handler_body failures u') as Hk.
      specialize (Hk ltac:(reflexivity) ltac:(reflexivity) ltac:(reflexivity)
                     (at_dispatch s u')).
      destruct (at_dispatch_progress s u') as (_ & _ & Hf).
      destruct (fst (handler_body u' (at_dispatch s u'))) as [e|[]].
      * cbn [failures set_failures]. rewrite Hk, Hf, at_dispatch_item. reflexivity.
      * rewrite Hk, Hf, app_nil_r. reflexivity.
  - intros e He. rewrite fetch_run, He. split; reflexivity.
  - intros u' e Hu' He. rewrite fetch_run, Hu'. cbv zeta.
    set (s2 := set_item (registered s) (with_url (item s) u')).
    rewrite (set_cookies_fst s s2), He by reflexivity. cbn [fst snd].
    split; [reflexivity|].
    rewrite (keeps_set_cookies failures) by reflexivity. reflexivity.
Qed.

(** ** What fetch does to the item *)

Lemma album_body_item s :
  item (snd (album_body s)) = item s
  \/ exists title,
       item (snd (album_body s)) = add_to_parent_title (item s) title.
Proof.
  unfold album_body, bind. cbn [get_item lift].
  destruct (get_BS4 domain (url (item s))) as [e|sp]; [left; reflexivity|].
  destruct (title_text sp) as [t0|]; [|left; reflexivity].
  destruct (Url.parts (url (item s)) !! 2%nat) as [album_id|];
    [|left; reflexivity].
  cbn [required modify]. right. eexists.
  rewrite (keeps_for_each item); [reflexivity|].
  intros c. apply keeps_album_entry. reflexivity.
Qed.

Lemma wrapper_item (func : M unit) s :
  item (snd (error_handling_wrapper func s)) = item (snd (func s)).
Proof.
  rewrite wrapper_run. cbn [snd]. destruct (fst (func s)); reflexivity.
Qed.

Lemma add_to_parent_title_with_url it u t :
  parent_title (add_to_parent_title (with_url it u) t)
  = parent_title (add_to_parent_title it t).
Proof.
  unfold add_to_parent_title. cbn [retry parent_title with_url].
  destruct (negb (Str.truthy t) || retry it); reflexivity.
Qed.

(** C9.  [fetch] changes the item it is given: its [url] becomes the
    stream link (and stays as it was if [get_stream_link] raises), which
    for some items is another URL;
    [part_of_album], [possible_datetime], [retry] and [retry_path] stay as
    they were; [parent_title] stays as it was unless the album handler
    ran, and then it is what [add_to_parent_title] made of it.  The video
    and other handlers leave the whole item as it is. *)
Theorem fetch_item_frame (s : state) :
  let it := item s in
  let it' := item (snd (fetch s)) in
  part_of_album it' = part_of_album it
  /\ possible_datetime it' = possible_datetime it
  /\ retry it' = retry it
  /\ retry_path it' = retry_path it
  /\ match get_stream_link (url it) with
     | inr u' => url it' = u'
     | inl _ => url it' = url it
     end
  /\ (parent_title it' = parent_title it
      \/ exists u' title,
           get_stream_link (url it) = inr u'
           /\ Str.mem "a" (Url.parts u') = true
           /\ parent_title it' = parent_title (add_to_parent_title it title))
  /\ (forall s0, item (snd (video s0)) = item s0)
  /\ (forall s0, item (snd (other s0)) = item s0)
  /\ (exists s0, url (item (snd (fetch s0))) <> url (item s0)).
Proof.
  cbv zeta.
  assert (Hurl : forall s0,
            match get_stream_link (url (item s0)) with
            | inr u' => url (item (snd (fetch s0))) = u'
            | inl _ => url (item (snd (fetch s0))) = url (item s0)
            end).
  { intros s0. rewrite fetch_run.
    destruct (get_stream_link (url (item s0))) as [e|u']; [reflexivity|].
    cbv zeta.
    destruct (fst (set_cookies (set_item (registered s0) (with_url (item s0) u'))))
      as [e|[]]; cbn [snd].
    - rewrite set_cookies_item. reflexivity.
    - cbn [item set_progress].
      rewrite (keeps_wrapped_handler (fun s => url (item s))) by reflexivity.
      rewrite at_dispatch_item. reflexivity. }
  assert (Hdiffers : exists s0, url (item (snd (fetch s0))) <> url (item s0)).
  { set (u0 := Samples.file_url "cdn.bunkr.ru" "/file.zip").
    exists (Samples.primed (Samples.item_at u0)).
    specialize (Hurl (Samples.primed (Samples.item_at u0))).
    cbn [item Samples.primed Samples.item_at url] in *.
    destruct (Str.mem (Str.lower (Url.suffix u0)) FILE_FORMATS_Images) eqn:Hi.
    - rewrite (get_stream_link_image u0 "cdn.bunkr.ru") in Hurl
        by (reflexivity || discriminate || exact Hi).
      rewrite Hurl. discriminate.
    - rewrite (get_stream_link_plain u0 "cdn.bunkr.ru") in Hurl
        by (reflexivity || discriminate || exact Hi).
      rewrite Hurl.
      destruct (Str.mem (Str.lower (Url.suffix u0)) FILE_FORMATS_Videos);
        discriminate. }
  assert (Hvid : forall s0, item (snd (video s0)) = item s0).
  { intros s0. unfold video. rewrite wrapper_item.
    apply (keeps_video_body item). reflexivity. }
  assert (Hoth : forall s0, item (snd (other s0)) = item s0).
  { intros s0. unfold other. rewrite wrapper_item.
    apply (keeps_other_body item). reflexivity. }
  specialize (Hurl s). revert Hurl. rewrite fetch_run.
  destruct (get_stream_link (url (item s))) as [e|u'] eqn:Hu.
  { cbn [snd item registered set_progress]. repeat split; auto. }
  cbv zeta. set (s2 := set_item (registered s) (with_url (item s) u')).
  destruct (fst (set_cookies s2)) as [e|[]]; cbn [snd].
  { rewrite set_cookies_item. subst s2. cbn. repeat split; auto. }
  cbn [item set_progress].
  set (sd := at_dispatch s u').
  assert (Hsd : item sd = with_url (item s) u') by apply at_dispatch_item.
  intros Hurl.
  repeat split; auto.
  - rewrite (keeps_wrapped_handler (fun s => part_of_album (item s))) by reflexivity.
    rewrite Hsd; reflexivity.
  - rewrite (keeps_wrapped_handler (fun s => possible_datetime (item s))) by reflexivity.
    rewrite Hsd; reflexivity.
  - rewrite (keeps_wrapped_handler (fun s => retry (item s))) by reflexivity.
    rewrite Hsd; reflexivity.
  - rewrite (keeps_wrapped_handler (fun s => retry_path (item s))) by reflexivity.
    rewrite Hsd; reflexivity.
  - rewrite wrapper_item. unfold handler_body.
    destruct (Str.mem "a" (Url.parts u')) eqn:Ha.
    + destruct (album_body_item sd) as [-> | [title ->]].
      * left. rewrite Hsd. reflexivity.
      * right. exists u', title. repeat split; auto.
        rewrite Hsd. apply add_to_parent_title_with_url.
    + left. destruct (Str.mem "v" (Url.parts u')).
      * rewrite (keeps_video_body item) by reflexivity. rewrite Hsd. reflexivity.
      * rewrite (keeps_other_body item) by reflexivity. rewrite Hsd. reflexivity.
Qed.

(** ** The album handler on a well-formed page *)

Lemma set_queue_same s : set_queue s (scraper_queue s) = s.
Proof. destruct s; reflexivity. Qed.

Lemma album_entry_run s h c :
  host (url (item s)) = Some h ->
  well_formed_card h c ->
  exists child,
    entry_of (item s) h c child
    /\ album_entry c s = (inr tt, set_queue s (scraper_queue s ++ [child])).
Proof.
  intros Hh (href & date_text & link & Hf & Hd & Hp & Hl & Hlink).
  destruct (parse_datetime date_text) as [e|ts] eqn:Hts; [discriminate|].
  destruct (get_stream_link link) as [e|u'] eqn:Hu'; [discriminate|].
  exists (mkScrapeItem u' (parent_title (item s)) true (Some ts) false None).
  split.
  - exists href, date_text, link, ts. repeat split; assumption.
  - unfold album_entry, bind. cbn [get_item lift].
    rewrite Hd. cbn [required]. rewrite Hts, Hf. cbn [required].
    rewrite Hh. cbn [required rbind].
    unfold resolve_link in Hl.
    destruct (Str.startswith "/" href); rewrite Hl, Hu'; reflexivity.
Qed.

Lemma album_entries_run cards : forall s h,
  host (url (item s)) = Some h ->
  Forall (well_formed_card h) cards ->
  exists children,
    Forall2 (entry_of (item s) h) cards children
    /\ for_each cards album_entry s
       = (inr tt, set_queue s (scraper_queue s ++ children)).
Proof.
  induction cards as [|c cards IH]; intros s h Hh Hall.
  - exists []. split; [constructor|].
    cbn [for_each]. rewrite app_nil_r, set_queue_same. reflexivity.
  - inversion Hall as [|? ? Hc Hrest]; subst.
    destruct (album_entry_run s h c Hh Hc) as (child & Hchild & Hrun).
    set (s1 := set_queue s (scraper_queue s ++ [child])).
    destruct (IH s1 h Hh Hrest) as (children & Hchildren & Hruns).
    exists (child :: children). split; [constructor; assumption|].
    cbn [for_each]. unfold bind. rewrite Hrun. fold s1. rewrite Hruns.
    subst s1. cbn [set_queue scraper_queue item cookies_set authentication_data
                   cookies progress next_task handled failures].
    rewrite <- app_assoc. reflexivity.
Qed.


(** ** The fallback of the video and other handlers *)

Lemma fallback_tail link it s :
  (fe <~ try_except_NoExtensionFailure
           (lift (get_filename_and_ext (Url.name link)))
           (lift (get_filename_and_ext (Url.name (url it)))) ;;
   handle_file link it (fst fe) (snd fe)) s
  = match get_filename_and_ext (Url.name link) with
    | inr fe => handle_file link it (fst fe) (snd fe) s
    | inl NoExtensionFailure =>
        match get_filename_and_ext (Url.name (url it)) with
        | inr fe => handle_file link it (fst fe) (snd fe) s
        | inl e => (inl e, s)
        end
    | inl e => (inl e, s)
    end.
Proof.
  unfold bind, try_except_NoExtensionFailure, lift.
  destruct (get_filename_and_ext (Url.name link)) as [[]|fe]; reflexivity.
Qed.

Lemma handle_file_handled link it filename ext s :
  handled (snd (handle_file link it filename ext s))
  = handled s ++ [(link, it, filename, ext)].
Proof.
  unfold handle_file.
  destruct (handle_file_raises link it filename ext); reflexivity.
Qed.

Lemma fallback_outcome_of_tail (body : M unit) link s :
  body s
  = (fe <~ try_except_NoExtensionFailure
             (lift (get_filename_and_ext (Url.name link)))
             (lift (get_filename_and_ext (Url.name (url (item s))))) ;;
     handle_file link (item s) (fst fe) (snd fe)) s ->
  fallback_outcome body link s.
Proof.
  intros Hbody e He. rewrite Hbody, fallback_tail, He.
  destruct e; try reflexivity.
  destruct (get_filename_and_ext (Url.name (url (item s)))) as [e'|[f x]];
    [reflexivity|].
  cbn [fst snd]. split; [reflexivity | apply handle_file_handled].
Qed.

(** C8 (as amended).  In the video and other handlers, when the name of
    the direct link has no extension (NoExtensionFailure), file name and
    extension are taken from the name of the page URL and, if that
    succeeds, the file is handed to [handle_file]; if that raises as
    well, the handler ends with that exception.  Any other exception of
    the first attempt ends the handler at once. *)
Theorem NoExtensionFailure_fallback (s : state) (sp : soup) :
  get_BS4 domain (url (item s)) = inr sp ->
  (forall href link,
     last (blue_anchors sp) = Some href -> Url.of_attr href = inr link ->
     fallback_outcome video_body link s)
  /\ (forall href link,
        last (white_anchors sp) = Some href -> Url.of_attr href = inr link ->
        fallback_outcome other_body link s).
Proof.
  intros Hsp. split; intros href link Hlast Hlink;
    apply fallback_outcome_of_tail.
  - unfold video_body. unfold bind at 1. cbn [get_item].
    unfold bind at 1. cbn [lift]. rewrite Hsp.
    unfold bind at 1. cbn [lift]. rewrite Hlast. cbn [required].
    unfold bind at 1. cbn [lift]. rewrite Hlink. reflexivity.
  - unfold other_body. unfold bind at 1. cbn [get_item].
    unfold bind at 1. cbn [lift]. rewrite Hsp.
    unfold bind at 1. cbn [lift]. rewrite Hlast. cbn [required].
    unfold bind at 1. cbn [lift]. rewrite Hlink. reflexivity.
Qed.

(** * Further properties of the crawler *)

(** ** get_stream_link, applied again *)

Lemma image_host_cases h :
  image_host h = h \/ exists t, image_host h = String "i" t.
Proof.
  unfold image_host.
  destruct (Str.strip_prefix "cdn" h) as [r|]; [|left; reflexivity].
  destruct (Str.span Str.is_digit r) as [ds [|c tl]]; [left; reflexivity|].
  destruct c as [[] [] [] [] [] [] [] []];
    first [left; reflexivity | right; eexists; reflexivity].
Qed.

Lemma url_with_host_same u h : host u = Some h -> url_with_host u h = u.
Proof. destruct u; cbn; intros ->; reflexivity. Qed.

Lemma get_stream_link_again (u u' : URL) :
  get_stream_link u = inr u' -> get_stream_link u' = inr u'.
Proof.
  intros Hg.
  destruct (host u) as [h|] eqn:Hh;
    [|rewrite (get_stream_link_no_host u Hh) in Hg; discriminate].
  destruct (Re.matches cdn_possibilities h) eqn:Hm.
  2:{ rewrite (get_stream_link_unmatched u h Hh Hm) in Hg.
      injection Hg as <-. apply (get_stream_link_unmatched u h Hh Hm). }
  destruct (String.eqb_spec (Str.lower (Url.suffix u)) "") as [He|He].
  { rewrite (get_stream_link_no_ext u h Hh He) in Hg.
    injection Hg as <-. apply (get_stream_link_no_ext u h Hh He). }
  destruct (Str.mem (Str.lower (Url.suffix u)) FILE_FORMATS_Images) eqn:Hi.
  - pose proof (get_stream_link_image u h Hh Hm He Hi) as Himg.
    rewrite Himg in Hg. injection Hg as <-.
    destruct (image_host_cases h) as [Hih | [t Hih]]; rewrite Hih in *.
    + rewrite (url_with_host_same u h Hh) in *. exact Himg.
    + apply (get_stream_link_unmatched _ (String "i" t)); reflexivity.
  - destruct (get_stream_link_page_cases u h Hh Hm He Hi)
      as [[_ Hp] | [_ [p Hp]]]; rewrite Hp in Hg; [discriminate|].
    injection Hg as <-.
    apply (get_stream_link_unmatched _ "bunkrr.su"); reflexivity.
Qed.

(** X1.  A stream link is its own stream link: when [get_stream_link]
    returns [u'], it returns [u'] for [u'] as well.  The image hosts it
    makes and the primary domain are no CDN hosts, so a rewritten URL is
    not rewritten again. *)
Theorem get_stream_link_fixed_point (u u' : URL) :
  get_stream_link u = inr u' -> get_stream_link u' = inr u'.
Proof. apply get_stream_link_again. Qed.

(** X2.  What [get_stream_link] raises, and when: TypeError for a URL
    without host; ValueError for a file of a CDN host that is no image
    and whose decoded last part starts with a slash, which the path join
    refuses; and nothing else.  What it returns has a host. *)
Theorem get_stream_link_raises_when (u : URL) (e : exn) :
  (get_stream_link u = inl e <->
   (e = TypeError /\ host u = None)
   \/ (e = ValueError
       /\ exists h,
            host u = Some h
            /\ Re.matches cdn_possibilities h = true
            /\ Str.lower (Url.suffix u) <> ""
            /\ Str.mem (Str.lower (Url.suffix u)) FILE_FORMATS_Images = false
            /\ Str.startswith "/" (Url.last_part u) = true))
  /\ (forall u', get_stream_link u = inr u' -> host u' <> None).
Proof.
  split; [split|].
  - intros He. destruct (host u) as [h|] eqn:Hh.
    + destruct (get_stream_link_with_host u h Hh)
        as [(u' & Hu' & _) | (Hv & Hm & Hx & Hi & Hsl)]; [congruence|].
      right. rewrite Hv in He. injection He as <-.
      split; [reflexivity|]. exists h. auto.
    + rewrite (get_stream_link_no_host u Hh) in He. injection He as <-.
      left. split; reflexivity.
  - intros [[-> Hh] | [-> (h & Hh & Hm & Hx & Hi & Hsl)]].
    + apply get_stream_link_no_host, Hh.
    + destruct (get_stream_link_page_cases u h Hh Hm Hx Hi)
        as [[_ Hp] | [Hsl' _]]; [exact Hp | congruence].
  - intros u' Hu'. destruct (host u) as [h|] eqn:Hh.
    + destruct (get_stream_link_with_host u h Hh)
        as [(u'' & Hu'' & Hhost) | (Hv & _)]; congruence.
    + rewrite (get_stream_link_no_host u Hh) in Hu'. discriminate.
Qed.

(** X3.  When [get_stream_link] returns for the URL of the item, the
    item has that stream link as its URL after [fetch], whether [fetch]
    returns or raises, and the URL is its own stream link: fetching the
    same item again, as a retry does, rewrites its URL no further. *)
Theorem fetch_url_settled (s : state) (u' : URL) :
  get_stream_link (url (item s)) = inr u' ->
  url (item (snd (fetch s))) = u'
  /\ get_stream_link (url (item (snd (fetch s))))
     = inr (url (item (snd (fetch s)))).
Proof.
  intros Hu'.
  assert (Hurl : url (item (snd (fetch s))) = u').
  { rewrite fetch_run, Hu'. cbv zeta.
    destruct (fst (set_cookies (set_item (registered s) (with_url (item s) u'))))
      as [e|[]]; cbn [snd].
    - rewrite set_cookies_item. reflexivity.
    - cbn [item set_progress].
      rewrite (keeps_wrapped_handler (fun s => url (item s))) by reflexivity.
      rewrite at_dispatch_item. reflexivity. }
  split; [exact Hurl|].
  rewrite Hurl. apply (get_stream_link_again _ _ Hu').
Qed.

(** ** parse_datetime: what it rejects, its range, and that it loses
    nothing *)

Lemma format_regex_render_before dt rest :
  PyTime.valid dt = true ->
  PyTime.format_regex (PyTime.render_before dt rest) = [(dt, rest)].
Proof.
  intros Hv. pose proof (valid_bounds dt Hv) as (HY & Hm & Hd & HH & HM & HS).
  unfold PyTime.format_regex, PyTime.render_before.
  rewrite parse_hour by first [lia | intros v; apply lit_rejects_digit; reflexivity].
  unfold PyTime.pbind at 1. cbn [PyTime.lit]. rewrite Ascii.eqb_refl.
  cbn [flat_map]. rewrite app_nil_r.
  rewrite parse_minute by first [lia | intros v; apply lit_rejects_digit; reflexivity].
  unfold PyTime.pbind at 1. cbn [PyTime.lit]. rewrite Ascii.eqb_refl.
  cbn [flat_map]. rewrite app_nil_r.
  rewrite parse_second by first [lia | intros v; apply spaces1_rejects_digit].
  rewrite parse_space by lia.
  rewrite parse_day by first [lia | intros v; apply lit_rejects_digit; reflexivity].
  unfold PyTime.pbind at 1. cbn [PyTime.lit]. rewrite Ascii.eqb_refl.
  cbn [flat_map]. rewrite app_nil_r.
  rewrite parse_month by first [lia | intros v; apply lit_rejects_digit; reflexivity].
  unfold PyTime.pbind at 1. cbn [PyTime.lit]. rewrite Ascii.eqb_refl.
  cbn [flat_map]. rewrite app_nil_r.
  unfold PyTime.pbind. rewrite parse_year by lia.
  cbn [flat_map]. unfold PyTime.pret. rewrite app_nil_r.
  destruct dt; reflexivity.
Qed.

Lemma render_append dt t :
  PyTime.render dt +:+ t = PyTime.render_before dt t.
Proof. reflexivity. Qed.

(** X4.  [parse_datetime] takes the date and nothing else: a text that
    does not start with a digit (the empty text, a text with a blank in
    front) and a date followed by any further text (a blank, a line end)
    both raise ValueError. *)
Theorem parse_datetime_strict :
  parse_datetime "" = inl ValueError
  /\ (forall c s, Str.is_digit c = false ->
                 parse_datetime (String c s) = inl ValueError)
  /\ (forall dt t, PyTime.valid dt = true -> t <> "" ->
                  parse_datetime (PyTime.render dt +:+ t) = inl ValueError).
Proof.
  standalone. split; [reflexivity|]. split.
  - intros c s Hc. unfold parse_datetime, PyTime.strptime.
    assert (Hno : PyTime.format_regex (String c s) = []).
    { destruct s as [|c2 s];
        destruct c as [[] [] [] [] [] [] [] []];
        try discriminate Hc; reflexivity. }
    rewrite Hno. reflexivity.
  - intros dt t Hv Ht. unfold parse_datetime, PyTime.strptime.
    rewrite render_append, (format_regex_render_before dt t Hv).
    destruct t; [congruence | reflexivity].
Qed.

Lemma days_before_year_mono a b :
  a <= b -> PyTime.days_before_year a <= PyTime.days_before_year b.
Proof.
  standalone. intros Hab. unfold PyTime.days_before_year.
  Z.div_mod_to_equations. lia.
Qed.

(* looks a month up in the tables of [datetime] *)
Ltac month_tables :=
  cbv [Z.of_nat Pos.of_succ_nat Pos.succ Z.to_nat Pos.to_nat Pos.iter_op
       Nat.add nth PyTime.DAYS_BEFORE_MONTH PyTime.DAYS_IN_MONTH
       Z.eqb Z.ltb Z.compare Pos.compare Pos.compare_cont Pos.eqb andb].

(* the day of the year lies within the year *)
Lemma day_of_year_range y m d :
  1 <= m <= 12 -> 1 <= d <= PyTime.days_in_month y m ->
  1 <= PyTime.days_before_month y m + d <= PyTime.year_length y.
Proof.
  standalone. intros Hm. unfold PyTime.days_before_month, PyTime.days_in_month,
    PyTime.year_length.
  destruct (PyTime.is_leap y);
    enum_Z m 13 ltac:(month_tables; lia).
Qed.

(* a month begins after the month before it has ended *)
Lemma months_in_order y m1 m2 :
  1 <= m1 -> m1 < m2 -> m2 <= 12 ->
  PyTime.days_before_month y m1 + PyTime.days_in_month y m1
  <= PyTime.days_before_month y m2.
Proof.
  standalone. intros H1 H12 H2.
  unfold PyTime.days_before_month, PyTime.days_in_month.
  destruct (PyTime.is_leap y);
    enum_Z m1 13 ltac:(enum_Z m2 13 ltac:(month_tables; lia)).
Qed.

Lemma timegm_ordinal dt :
  PyTime.timegm dt
  = 86400 * (PyTime.ymd2ord (year dt) (month dt) (day dt) - 719163)
    + 3600 * hour dt + 60 * minute dt + second dt.
Proof.
  standalone. unfold PyTime.timegm, PyTime.ymd2ord.
  change PyTime.EPOCH_ORD with 719163. lia.
Qed.

Lemma valid_day dt : PyTime.valid dt = true ->
  1 <= day dt <= PyTime.days_in_month (year dt) (month dt).
Proof.
  standalone. unfold PyTime.valid. rewrite !andb_true_iff, !Z.leb_le. tauto.
Qed.

Lemma ordinal_range dt : PyTime.valid dt = true ->
  PyTime.days_before_year (year dt) + 1
  <= PyTime.ymd2ord (year dt) (month dt) (day dt)
  <= PyTime.days_before_year (year dt + 1).
Proof.
  standalone. intros Hv. pose proof (valid_bounds dt Hv) as (_ & Hm & _).
  pose proof (day_of_year_range _ _ _ Hm (valid_day dt Hv)).
  pose proof (days_before_year_succ (year dt)).
  unfold PyTime.ymd2ord. lia.
Qed.

(** X5.  The epoch [parse_datetime] returns lies between the first second
    of year 1 and the last second of year 9999: from -62135596800 to
    253402300799. *)
Theorem parse_datetime_range (s : string) (ts : Z) :
  parse_datetime s = inr ts -> -62135596800 <= ts <= 253402300799.
Proof.
  standalone. unfold parse_datetime.
  destruct (PyTime.strptime s) as [e|dt] eqn:Hs; [discriminate|].
  cbn [rbind]. intros [= <-].
  apply strptime_valid in Hs.
  pose proof (valid_bounds dt Hs) as (HY & _ & _ & HH & HM & HS).
  pose proof (ordinal_range dt Hs) as Hord.
  pose proof (days_before_year_mono 1 (year dt) ltac:(lia)) as Hlo.
  pose proof (days_before_year_mono (year dt + 1) 10000 ltac:(lia)) as Hhi.
  change (PyTime.days_before_year 1) with 0 in Hlo.
  change (PyTime.days_before_year 10000) with 3652059 in Hhi.
  rewrite timegm_ordinal. lia.
Qed.

Lemma timegm_injective dt1 dt2 :
  PyTime.valid dt1 = true -> PyTime.valid dt2 = true ->
  PyTime.timegm dt1 = PyTime.timegm dt2 -> dt1 = dt2.
Proof.
  standalone. intros Hv1 Hv2.
  pose proof (valid_bounds dt1 Hv1) as (HY1 & Hm1 & _ & HH1 & HM1 & HS1).
  pose proof (valid_bounds dt2 Hv2) as (HY2 & Hm2 & _ & HH2 & HM2 & HS2).
  pose proof (valid_day dt1 Hv1) as Hd1.
  pose proof (valid_day dt2 Hv2) as Hd2.
  pose proof (ordinal_range dt1 Hv1) as Ho1.
  pose proof (ordinal_range dt2 Hv2) as Ho2.
  rewrite !timegm_ordinal. intros Heq.
  assert (Hord : PyTime.ymd2ord (year dt1) (month dt1) (day dt1)
                 = PyTime.ymd2ord (year dt2) (month dt2) (day dt2)) by lia.
  assert (Hy : year dt1 = year dt2).
  { destruct (Z.lt_trichotomy (year dt1) (year dt2)) as [Hlt | [Heq' | Hgt]];
      [|exact Heq'|].
    - pose proof (days_before_year_mono (year dt1 + 1) (year dt2) ltac:(lia)). lia.
    - pose proof (days_before_year_mono (year dt2 + 1) (year dt1) ltac:(lia)). lia. }
  assert (Hmo : month dt1 = month dt2).
  { unfold PyTime.ymd2ord in Hord. rewrite Hy in *.
    destruct (Z.lt_trichotomy (month dt1) (month dt2)) as [Hlt | [Heq' | Hgt]];
      [|exact Heq'|].
    - pose proof (months_in_order (year dt2) (month dt1) (month dt2)
                    ltac:(lia) Hlt ltac:(lia)). lia.
    - pose proof (months_in_order (year dt2) (month dt2) (month dt1)
                    ltac:(lia) Hgt ltac:(lia)). lia. }
  assert (Hda : day dt1 = day dt2).
  { unfold PyTime.ymd2ord in Hord. rewrite Hy, Hmo in Hord. lia. }
  destruct dt1, dt2; cbn in *. f_equal; lia.
Qed.

(** X6.  [parse_datetime] loses nothing of the date: two texts with the
    same epoch were read as the same date and time. *)
Theorem parse_datetime_injective (s1 s2 : string) (dt1 dt2 : datetime) :
  PyTime.strptime s1 = inr dt1 -> PyTime.strptime s2 = inr dt2 ->
  parse_datetime s1 = parse_datetime s2 -> dt1 = dt2.
Proof.
  standalone. unfold parse_datetime. intros H1 H2. rewrite H1, H2. cbn [rbind].
  intros [= Heq].
  apply (timegm_injective dt1 dt2);
    [eapply strptime_valid; eauto | eapply strptime_valid; eauto | exact Heq].
Qed.

(** ** add_to_parent_title, repeated *)

Lemma startswith_append s t : Str.startswith s (s +:+ t) = true.
Proof.
  standalone. induction s as [|c s IH]; [reflexivity|].
  simpl. rewrite Ascii.eqb_refl. exact IH.
Qed.

Lemma startswith_self s : Str.startswith s s = true.
Proof.
  standalone. induction s as [|c s IH]; [reflexivity|].
  cbn [Str.startswith]. rewrite Ascii.eqb_refl. exact IH.
Qed.

(** X7.  [add_to_parent_title] touches [parent_title] alone, and only
    ever extends it: the old title is a prefix of the new one, so a
    folder path once accumulated is never lost. *)
Theorem add_to_parent_title_extends (it : ScrapeItem) (t : string) :
  add_to_parent_title it t
  = with_parent_title it (parent_title (add_to_parent_title it t))
  /\ Str.startswith (parent_title it)
                    (parent_title (add_to_parent_title it t)) = true.
Proof.
  split; [apply add_to_parent_title_shape|].
  unfold add_to_parent_title.
  destruct (negb (Str.truthy t) || retry it); [apply startswith_self|].
  cbn [parent_title with_parent_title].
  destruct (parent_title it) as [|c p]; [reflexivity|].
  cbn [Str.truthy]. apply startswith_append.
Qed.

Lemma append_assoc a b c : (a +:+ b) +:+ c = a +:+ b +:+ c.
Proof.
  standalone. induction a as [|x a IH]; [reflexivity|].
  change (String x ((a +:+ b) +:+ c) = String x (a +:+ b +:+ c)).
  rewrite IH. reflexivity.
Qed.

Lemma join_extend a b rest :
  Str.join "/" ((a +:+ "/" +:+ b) :: rest)
  = a +:+ "/" +:+ Str.join "/" (b :: rest).
Proof.
  standalone. destruct rest as [|r rest]; [reflexivity|].
  cbn [Str.join]. rewrite append_assoc. reflexivity.
Qed.

Lemma accumulate_from_title titles : forall it,
  retry it = false -> parent_title it <> "" ->
  Forall (fun t => t <> "") titles ->
  parent_title (fold_left add_to_parent_title titles it)
  = Str.join "/" (parent_title it :: map sanitize_folder titles).
Proof.
  induction titles as [|t titles IH]; intros it Hr Hp Hall; [reflexivity|].
  inversion Hall as [|? ? Ht Hrest]; subst.
  cbn [fold_left map].
  assert (Hstep : add_to_parent_title it t
                  = with_parent_title it
                      (parent_title it +:+ "/" +:+ sanitize_folder t)).
  { unfold add_to_parent_title. rewrite Hr.
    destruct t; [congruence|]. destruct (parent_title it); [congruence|].
    reflexivity. }
  rewrite Hstep, IH; cbn [retry parent_title with_parent_title]; auto.
  - rewrite join_extend.
    destruct titles; reflexivity.
  - destruct (parent_title it); [congruence | discriminate].
Qed.

(** X8.  Titles added one after the other pile up as path segments: for
    an item that is no retry and non-empty titles, the parent title ends
    up as the old one and the sanitized titles joined by "/"; from an
    empty parent title it is the sanitized titles joined by "/", as long
    as sanitizing leaves none of them empty. *)
Theorem add_to_parent_title_accumulates (it : ScrapeItem) (titles : list string) :
  retry it = false ->
  Forall (fun t => t <> "") titles ->
  (parent_title it <> "" ->
   parent_title (fold_left add_to_parent_title titles it)
   = Str.join "/" (parent_title it :: map sanitize_folder titles))
  /\ (parent_title it = "" ->
      Forall (fun t => sanitize_folder t <> "") titles ->
      parent_title (fold_left add_to_parent_title titles it)
      = Str.join "/" (map sanitize_folder titles)).
Proof.
  intros Hr Hall. split; [intros Hp; apply accumulate_from_title; assumption|].
  intros Hp Hsan. destruct titles as [|t titles]; [exact Hp|].
  inversion Hall as [|? ? Ht Hrest]; subst.
  inversion Hsan as [|? ? Hst Hsrest]; subst.
  cbn [fold_left map].
  assert (Hstep : add_to_parent_title it t
                  = with_parent_title it (sanitize_folder t)).
  { unfold add_to_parent_title. rewrite Hr, Hp.
    destruct t; [congruence | reflexivity]. }
  rewrite Hstep. apply accumulate_from_title; auto.
Qed.

(** ** set_cookies: what it writes and when it completes *)

Lemma jar_with_other name v jar k :
  k <> ("*.bunkrr.su", name) -> jar_with name v jar !! k = jar !! k.
Proof.
  standalone. intros Hk. unfold jar_with. destruct (truthy v); [|reflexivity].
  apply lookup_insert_ne. congruence.
Qed.

(** X9.  [set_cookies] writes the three DDoS-Guard cookies and nothing
    else: whether it returns or raises, every other cookie of the jar,
    the item, the configuration, the progress tracker, the queue and the
    logs are as before. *)
Theorem set_cookies_writes_only_its_cookies (s : state) :
  (forall k, ~ ddos_guard_cookie k ->
             cookies (snd (set_cookies s)) !! k = cookies s !! k)
  /\ item (snd (set_cookies s)) = item s
  /\ authentication_data (snd (set_cookies s)) = authentication_data s
  /\ progress (snd (set_cookies s)) = progress s
  /\ scraper_queue (snd (set_cookies s)) = scraper_queue s
  /\ handled (snd (set_cookies s)) = handled s
  /\ failures (snd (set_cookies s)) = failures s.
Proof.
  split.
  - intros k Hk. unfold ddos_guard_cookie in Hk.
    rewrite set_cookies_run.
    repeat case_match; cbn [snd cookies set_jar set_cookies_set];
      rewrite ?jar_with_other by tauto; reflexivity.
  - repeat split.
    + apply (keeps_set_cookies item); reflexivity.
    + apply (keeps_set_cookies authentication_data); reflexivity.
    + apply (keeps_set_cookies progress); reflexivity.
    + apply (keeps_set_cookies scraper_queue); reflexivity.
    + apply (keeps_set_cookies handled); reflexivity.
    + apply (keeps_set_cookies failures); reflexivity.
Qed.

(** X10.  [set_cookies] completes exactly when the cookies are set
    already or the three keys are present under "DDOS-Guard".  Otherwise
    it raises KeyError and leaves [cookies_set] false, so that the next
    call primes again. *)
Theorem set_cookies_completes_iff (s : state) :
  (fst (set_cookies s) = inr tt <-> configured s)
  /\ (forall e, fst (set_cookies s) = inl e ->
        (exists k, e = KeyError k)
        /\ cookies_set (snd (set_cookies s)) = false).
Proof.
  split; [split; [|apply configured_returns]|].
  - rewrite set_cookies_run. unfold configured.
    destruct (cookies_set s); [left; reflexivity|].
    destruct (authentication_data s !! "DDOS-Guard") as [g|]; [|discriminate].
    destruct (g !! "bunkrr_ddg1") as [v1|] eqn:H1; [|discriminate].
    destruct (g !! "bunkrr_ddg2") as [v2|] eqn:H2; [|discriminate].
    destruct (g !! "bunkrr_ddgid") as [v3|] eqn:H3; [|discriminate].
    intros _. right. exists g, v1, v2, v3. auto.
  - intros e. rewrite set_cookies_run.
    destruct (cookies_set s) eqn:Hc; [discriminate|].
    repeat case_match; cbn [fst snd]; try discriminate;
      intros [= <-]; (split; [eexists; reflexivity | exact Hc]).
Qed.

(** ** The handlers, step by step *)

Lemma album_body_run s :
  album_body s =
    match get_BS4 domain (url (item s)) with
    | inl e => (inl e, s)
    | inr sp =>
        match title_text sp with
        | None => (inl AttributeError, s)
        | Some t =>
            match Url.parts (url (item s)) !! 2%nat with
            | None => (inl IndexError, s)
            | Some album_id =>
                for_each (card_listings sp) album_entry
                  (set_item s
                     (add_to_parent_title (item s)
                        (create_title (Str.strip t) (Some album_id) None)))
            end
        end
    end.
Proof.
  unfold album_body, bind. cbn [get_item lift].
  destruct (get_BS4 domain (url (item s))) as [e|sp]; [reflexivity|].
  destruct (title_text sp) as [t|]; [|reflexivity].
  destruct (Url.parts (url (item s)) !! 2%nat); reflexivity.
Qed.

Lemma video_body_run s :
  video_body s =
    match get_BS4 domain (url (item s)) with
    | inl e => (inl e, s)
    | inr sp =>
        match last (blue_anchors sp) with
        | None => (inl IndexError, s)
        | Some a =>
            match Url.of_attr a with
            | inl e => (inl e, s)
            | inr link =>
                match get_filename_and_ext (Url.name link) with
                | inr fe => handle_file link (item s) (fst fe) (snd fe) s
                | inl NoExtensionFailure =>
                    match get_filename_and_ext (Url.name (url (item s))) with
                    | inr fe => handle_file link (item s) (fst fe) (snd fe) s
                    | inl e => (inl e, s)
                    end
                | inl e => (inl e, s)
                end
            end
        end
    end.
Proof.
  unfold video_body. unfold bind at 1. cbn [get_item].
  unfold bind at 1. cbn [lift].
  destruct (get_BS4 domain (url (item s))) as [e|sp]; [reflexivity|].
  unfold bind at 1. cbn [lift].
  destruct (last (blue_anchors sp)) as [a|]; [|reflexivity]. cbn [required].
  unfold bind at 1. cbn [lift].
  destruct (Url.of_attr a) as [e|link]; [reflexivity|].
  apply fallback_tail.
Qed.

Lemma other_body_run s :
  other_body s =
    match get_BS4 domain (url (item s)) with
    | inl e => (inl e, s)
    | inr sp =>
        match last (white_anchors sp) with
        | None => (inl IndexError, s)
        | Some a =>
            match Url.of_attr a with
            | inl e => (inl e, s)
            | inr link =>
                match get_filename_and_ext (Url.name link) with
                | inr fe => handle_file link (item s) (fst fe) (snd fe) s
                | inl NoExtensionFailure =>
                    match get_filename_and_ext (Url.name (url (item s))) with
                    | inr fe => handle_file link (item s) (fst fe) (snd fe) s
                    | inl e => (inl e, s)
                    end
                | inl e => (inl e, s)
                end
            end
        end
    end.
Proof.
  unfold other_body. unfold bind at 1. cbn [get_item].
  unfold bind at 1. cbn [lift].
  destruct (get_BS4 domain (url (item s))) as [e|sp]; [reflexivity|].
  unfold bind at 1. cbn [lift].
  destruct (last (white_anchors sp)) as [a|]; [|reflexivity]. cbn [required].
  unfold bind at 1. cbn [lift].
  destruct (Url.of_attr a) as [e|link]; [reflexivity|].
  apply fallback_tail.
Qed.

(** X11.  The page is the first thing each handler asks for: when it
    cannot be fetched, the body of the handler ends with that exception
    and has changed nothing.  Behind its decorator the handler then
    returns, with the exception logged under the URL of the item and
    nothing else changed: nothing enqueued, nothing handed on, the item
    as it was. *)
Theorem page_failure_is_logged (s : state) (e : exn) :
  get_BS4 domain (url (item s)) = inl e ->
  (album_body s = (inl e, s)
   /\ video_body s = (inl e, s)
   /\ other_body s = (inl e, s))
  /\ let logged := set_failures s (failures s ++ [(url (item s), e)]) in
     album s = (inr tt, logged)
     /\ video s = (inr tt, logged)
     /\ other s = (inr tt, logged).
Proof.
  intros He. split.
  - rewrite album_body_run, video_body_run, other_body_run, He. repeat split.
  - intros logged. unfold album, video, other.
    rewrite !wrapper_run, album_body_run, video_body_run, other_body_run, He.
    repeat split.
Qed.

(** X12.  When the name of the direct link has an extension, the video
    and other handlers hand the link on under that name at once; the
    name of the page URL is not looked at. *)
Theorem link_name_is_used_first
  (s : state) (sp : soup) (filename ext : string) :
  get_BS4 domain (url (item s)) = inr sp ->
  (forall href link,
     last (blue_anchors sp) = Some href -> Url.of_attr href = inr link ->
     get_filename_and_ext (Url.name link) = inr (filename, ext) ->
     video_body s = handle_file link (item s) filename ext s
     /\ handled (snd (video_body s))
        = handled s ++ [(link, item s, filename, ext)])
  /\ (forall href link,
        last (white_anchors sp) = Some href -> Url.of_attr href = inr link ->
        get_filename_and_ext (Url.name link) = inr (filename, ext) ->
        other_body s = handle_file link (item s) filename ext s
        /\ handled (snd (other_body s))
           = handled s ++ [(link, item s, filename, ext)]).
Proof.
  intros Hsp. split; intros href link Hlast Hlink Hname.
  - rewrite video_body_run, Hsp, Hlast, Hlink, Hname. cbn [fst snd].
    split; [reflexivity | apply handle_file_handled].
  - rewrite other_body_run, Hsp, Hlast, Hlink, Hname. cbn [fst snd].
    split; [reflexivity | apply handle_file_handled].
Qed.

Lemma handle_file_at_most_one link it filename ext s :
  handled (snd (handle_file link it filename ext s)) = handled s
  \/ exists x, handled (snd (handle_file link it filename ext s))
               = handled s ++ [x].
Proof. right. eexists. apply handle_file_handled. Qed.

Lemma video_body_handled s :
  handled (snd (video_body s)) = handled s
  \/ exists x, handled (snd (video_body s)) = handled s ++ [x].
Proof.
  rewrite video_body_run.
  repeat case_match; first [left; reflexivity | apply handle_file_at_most_one].
Qed.

Lemma other_body_handled s :
  handled (snd (other_body s)) = handled s
  \/ exists x, handled (snd (other_body s)) = handled s ++ [x].
Proof.
  rewrite other_body_run.
  repeat case_match; first [left; reflexivity | apply handle_file_at_most_one].
Qed.

(** ** What one call of fetch can do *)

(** Outside the handler, [fetch] changes the tracker, the URL of the
    item, the jar and the flag; a component that depends on none of them
    is what the handler leaves. *)
Lemma fetch_outside_handler {B} (f : state -> B) s :
  (forall s p n, f (set_progress s p n) = f s) ->
  (forall s it, f (set_item s it) = f s) ->
  (forall s j, f (set_jar s j) = f s) ->
  (forall s b, f (set_cookies_set s b) = f s) ->
  match fst (fetch s), get_stream_link (url (item s)) with
  | inr _, inr u' =>
      f (snd (fetch s))
      = f (snd (error_handling_wrapper (handler_body u') (at_dispatch s u')))
      /\ f (at_dispatch s u') = f s
  | _, _ => f (snd (fetch s)) = f s
  end.
Proof.
  intros Hp Hi Hj Hb. rewrite fetch_run.
  destruct (get_stream_link (url (item s))) as [e|u'].
  { cbn [fst snd]. unfold registered. apply Hp. }
  cbv zeta. unfold at_dispatch.
  set (s2 := set_item (registered s) (with_url (item s) u')).
  assert (H2 : f s2 = f s) by (subst s2; unfold registered; rewrite Hi; apply Hp).
  assert (H3 : f (snd (set_cookies s2)) = f s2)
    by (apply (keeps_set_cookies f); assumption).
  destruct (fst (set_cookies s2)) as [e|[]]; cbn [fst snd].
  - congruence.
  - rewrite Hp. split; congruence.
Qed.

(** X13.  An exception that leaves [fetch] is the exception of
    [get_stream_link] for the URL of the item (TypeError without host,
    ValueError from the path join), or a KeyError of [set_cookies], for a
    configuration that lacks a key; the crawler has then logged nothing,
    enqueued nothing and handed nothing on. *)
Theorem fetch_raises_before_dispatch (s : state) (e : exn) :
  fst (fetch s) = inl e ->
  (get_stream_link (url (item s)) = inl e
   /\ ((e = TypeError /\ host (url (item s)) = None)
       \/ (e = ValueError /\ host (url (item s)) <> None))
   \/ (raised (get_stream_link (url (item s))) = false
       /\ (exists k, e = KeyError k) /\ ~ configured s))
  /\ failures (snd (fetch s)) = failures s
  /\ scraper_queue (snd (fetch s)) = scraper_queue s
  /\ handled (snd (fetch s)) = handled s.
Proof.
  intros He.
  pose proof (fetch_outside_handler failures s) as Hf.
  pose proof (fetch_outside_handler scraper_queue s) as Hq.
  pose proof (fetch_outside_handler handled s) as Hh.
  rewrite He in Hf, Hq, Hh.
  split; [|repeat split; [apply Hf | apply Hq | apply Hh]; reflexivity].
  clear Hf Hq Hh. rewrite fetch_run in He.
  destruct (get_stream_link (url (item s))) as [e'|u'] eqn:Hu.
  - left. cbn [fst] in He. injection He as <-. split; [reflexivity|].
    destruct (host (url (item s))) as [h|] eqn:Hh.
    + destruct (get_stream_link_with_host _ _ Hh)
        as [(u' & Hu' & _) | (Hv & _)]; [congruence|].
      right. rewrite Hv in Hu. injection Hu as <-. split; [reflexivity | discriminate].
    + rewrite (get_stream_link_no_host _ Hh) in Hu. injection Hu as <-.
      left. split; reflexivity.
  - right. split; [reflexivity|]. cbv zeta in He.
    set (s2 := set_item (registered s) (with_url (item s) u')) in *.
    assert (Hfst : fst (set_cookies s2) = fst (set_cookies s))
      by (apply set_cookies_fst; reflexivity).
    destruct (fst (set_cookies s2)) as [e'|[]] eqn:Hc; [|discriminate].
    cbn [fst] in He. injection He as <-.
    symmetry in Hfst. split.
    + revert Hfst. rewrite set_cookies_run.
      repeat case_match; cbn [fst]; try discriminate;
        intros [= <-]; eexists; reflexivity.
    + intros Hcfg. rewrite (configured_returns s Hcfg) in Hfst. discriminate.
Qed.

(** X14.  One call of [fetch] enqueues or hands on, never both; it hands
    at most one file on and logs at most one failure. *)
Theorem fetch_fans_out_or_hands_on (s : state) :
  (scraper_queue (snd (fetch s)) = scraper_queue s
   \/ handled (snd (fetch s)) = handled s)
  /\ (handled (snd (fetch s)) = handled s
      \/ exists x, handled (snd (fetch s)) = handled s ++ [x])
  /\ (failures (snd (fetch s)) = failures s
      \/ exists x, failures (snd (fetch s)) = failures s ++ [x]).
Proof.
  pose proof (fetch_outside_handler failures s) as Hf.
  pose proof (fetch_outside_handler scraper_queue s) as Hq.
  pose proof (fetch_outside_handler handled s) as Hh.
  destruct (fst (fetch s)) as [e|[]];
    [rewrite Hf, Hq, Hh by reflexivity; auto|].
  destruct (get_stream_link (url (item s))) as [e|u'];
    [rewrite Hf, Hq, Hh by reflexivity; auto|].
  destruct Hf as [-> <-]; try reflexivity.
  destruct Hq as [-> <-]; try reflexivity.
  destruct Hh as [-> <-]; try reflexivity.
  set (sd := at_dispatch s u').
  assert (Hwq : scraper_queue (snd (error_handling_wrapper (handler_body u') sd))
                = scraper_queue (snd (handler_body u' sd)))
    by (rewrite wrapper_run; cbn [snd]; destruct (fst (handler_body u' sd)); reflexivity).
  assert (Hwh : handled (snd (error_handling_wrapper (handler_body u') sd))
                = handled (snd (handler_body u' sd)))
    by (rewrite wrapper_run; cbn [snd]; destruct (fst (handler_body u' sd)); reflexivity).
  rewrite Hwq, Hwh.
  split; [|split].
  - unfold handler_body.
    destruct (Str.mem "a" (Url.parts u')); [|destruct (Str.mem "v" (Url.parts u'))].
    + right. apply (keeps_album_body handled); reflexivity.
    + left. apply (keeps_video_body scraper_queue); reflexivity.
    + left. apply (keeps_other_body scraper_queue); reflexivity.
  - unfold handler_body.
    destruct (Str.mem "a" (Url.parts u')); [|destruct (Str.mem "v" (Url.parts u'))].
    + left. apply (keeps_album_body handled); reflexivity.
    + apply video_body_handled.
    + apply other_body_handled.
  - rewrite wrapper_run. cbn [snd].
    pose proof (keeps_handler_body failures u' ltac:(reflexivity)
                  ltac:(reflexivity) ltac:(reflexivity) sd) as Hk.
    destruct (fst (handler_body u' sd)).
    + right. eexists. cbn [failures set_failures]. rewrite Hk. reflexivity.
    + left. exact Hk.
Qed.

Lemma set_cookies_sets_flag s :
  fst (set_cookies s) = inr tt -> cookies_set (snd (set_cookies s)) = true.
Proof.
  rewrite set_cookies_run.
  destruct (cookies_set s) eqn:Hc; [intros _; exact Hc|].
  repeat case_match; cbn [fst snd]; first [discriminate | reflexivity].
Qed.

(** X15.  Cookies are primed once for all calls of [fetch]: a call that
    returns leaves [cookies_set] true, and a call that finds it true
    leaves it true and the jar as it is. *)
Theorem fetch_primes_once (s : state) :
  (fst (fetch s) = inr tt -> cookies_set (snd (fetch s)) = true)
  /\ (cookies_set s = true ->
      cookies_set (snd (fetch s)) = true
      /\ cookies (snd (fetch s)) = cookies s).
Proof.
  rewrite fetch_run.
  destruct (get_stream_link (url (item s))) as [e|u'].
  { cbn [fst snd]. split; [discriminate|]. intros Hc. split; [exact Hc | reflexivity]. }
  cbv zeta. unfold at_dispatch.
  set (s2 := set_item (registered s) (with_url (item s) u')).
  pose proof (keeps_wrapped_handler cookies_set u' ltac:(reflexivity)
                ltac:(reflexivity) ltac:(reflexivity) ltac:(reflexivity)
                (snd (set_cookies s2))) as Hks.
  pose proof (keeps_wrapped_handler cookies u' ltac:(reflexivity)
                ltac:(reflexivity) ltac:(reflexivity) ltac:(reflexivity)
                (snd (set_cookies s2))) as Hkj.
  pose proof (set_cookies_sets_flag s2) as Hflag.
  split.
  - destruct (fst (set_cookies s2)) as [e|[]]; cbn [fst snd]; [discriminate|].
    intros _. cbn [cookies_set set_progress]. rewrite Hks. apply Hflag. reflexivity.
  - intros Hset.
    assert (Hrun : set_cookies s2 = (inr tt, s2))
      by (rewrite set_cookies_run; subst s2; cbn; rewrite Hset; reflexivity).
    rewrite Hrun in *. cbn [fst snd] in *.
    cbn [cookies_set cookies set_progress]. rewrite Hks, Hkj.
    subst s2. cbn. split; [exact Hset | reflexivity].
Qed.

(** ** The album handler on any page *)

Lemma album_entry_cases c s :
  (exists e, album_entry c s = (inl e, s))
  \/ (exists child,
        album_entry c s = (inr tt, set_queue s (scraper_queue s ++ [child]))
        /\ enqueued_child (item s) child).
Proof.
  unfold album_entry, bind. cbn [get_item lift].
  destruct (card_date c) as [date_text|]; cbn [required];
    [|left; eexists; reflexivity].
  destruct (parse_datetime date_text) as [e|ts];
    [left; eexists; reflexivity|].
  destruct (card_file c) as [[href|]|]; cbn [required];
    try (left; eexists; reflexivity).
  match goal with
  | |- context [match ?r with inl _ => _ | inr _ => _ end] =>
      destruct r as [e|link]
  end; [left; eexists; reflexivity|].
  destruct (get_stream_link link) as [e|u'] eqn:Hu;
    [left; eexists; reflexivity|].
  right. eexists. split; [reflexivity|].
  unfold enqueued_child. cbn.
  repeat split; eauto using get_stream_link_again.
Qed.

Lemma album_entries_any cards : forall s,
  exists children,
    snd (for_each cards album_entry s)
    = set_queue s (scraper_queue s ++ children)
    /\ (length children <= length cards)%nat
    /\ Forall (enqueued_child (item s)) children.
Proof.
  induction cards as [|c cards IH]; intros s.
  - exists []. cbn [for_each ret snd]. rewrite app_nil_r, set_queue_same.
    repeat split; [cbn; lia | constructor].
  - cbn [for_each]. unfold bind.
    destruct (album_entry_cases c s) as [[e He] | (child & Hrun & Hchild)].
    + rewrite He. exists []. cbn [snd]. rewrite app_nil_r, set_queue_same.
      repeat split; [cbn; lia | constructor].
    + rewrite Hrun.
      destruct (IH (set_queue s (scraper_queue s ++ [child])))
        as (children & Hsnd & Hlen & Hall).
      exists (child :: children). rewrite Hsnd.
      cbn [set_queue scraper_queue item cookies_set authentication_data
           cookies progress next_task handled failures] in *.
      rewrite <- app_assoc. repeat split; [cbn; lia | constructor; assumption].
Qed.

(** X16.  Whatever the page looks like, what the album handler enqueues
    comes after what was queued, is no more than the page has entries
    (nothing when the page could not be fetched), and every item of it is
    flagged [part_of_album], is no retry, carries a timestamp and the
    parent title of the album item, and has a URL that is its own stream
    link. *)
Theorem album_enqueues_only_children (s : state) :
  exists children,
    scraper_queue (snd (album s)) = scraper_queue s ++ children
    /\ Forall (enqueued_child (item (snd (album s)))) children
    /\ match get_BS4 domain (url (item s)) with
       | inr sp => (length children <= length (card_listings sp))%nat
       | inl _ => children = []
       end.
Proof.
  assert (Hw : scraper_queue (snd (album s)) = scraper_queue (snd (album_body s))
               /\ item (snd (album s)) = item (snd (album_body s))).
  { unfold album. rewrite wrapper_run. cbn [snd].
    destruct (fst (album_body s)); split; reflexivity. }
  destruct Hw as [-> ->]. rewrite album_body_run.
  destruct (get_BS4 domain (url (item s))) as [e|sp].
  { exists []. cbn [snd]. rewrite app_nil_r. repeat split. constructor. }
  destruct (title_text sp) as [t|].
  2:{ exists []. cbn [snd]. rewrite app_nil_r. repeat split; [constructor | cbn; lia]. }
  destruct (Url.parts (url (item s)) !! 2%nat) as [album_id|].
  2:{ exists []. cbn [snd]. rewrite app_nil_r. repeat split; [constructor | cbn; lia]. }
  set (s1 := set_item s _).
  destruct (album_entries_any (card_listings sp) s1)
    as (children & Hsnd & Hlen & Hall).
  exists children. rewrite Hsnd. cbn [scraper_queue set_queue item].
  repeat split; assumption.
Qed.

Lemma add_to_parent_title_retry it t :
  retry it = true -> add_to_parent_title it t = it.
Proof.
  intros Hr. unfold add_to_parent_title. rewrite Hr, orb_true_r. reflexivity.
Qed.

(** X17.  For a retry item the album handler leaves the item as it is,
    whatever the page: the title of the album is not merged, and the
    items it enqueues carry the parent title the retry came with. *)
Theorem album_keeps_retry_item (s : state) :
  retry (item s) = true ->
  item (snd (album s)) = item s
  /\ exists children,
       scraper_queue (snd (album s)) = scraper_queue s ++ children
       /\ Forall (fun child => parent_title child = parent_title (item s))
                 children.
Proof.
  intros Hr.
  assert (Hitem : item (snd (album s)) = item s).
  { unfold album. rewrite wrapper_item.
    destruct (album_body_item s) as [-> | [title ->]]; [reflexivity|].
    apply add_to_parent_title_retry, Hr. }
  split; [exact Hitem|].
  assert (Hw : scraper_queue (snd (album s)) = scraper_queue (snd (album_body s))).
  { unfold album. rewrite wrapper_run. cbn [snd].
    destruct (fst (album_body s)); reflexivity. }
  rewrite Hw, album_body_run.
  destruct (get_BS4 domain (url (item s))) as [e|sp];
    [exists []; cbn [snd]; rewrite app_nil_r; split; [reflexivity | constructor]|].
  destruct (title_text sp) as [t|];
    [|exists []; cbn [snd]; rewrite app_nil_r; split; [reflexivity | constructor]].
  destruct (Url.parts (url (item s)) !! 2%nat) as [album_id|];
    [|exists []; cbn [snd]; rewrite app_nil_r; split; [reflexivity | constructor]].
  rewrite (add_to_parent_title_retry _ _ Hr).
  destruct (album_entries_any (card_listings sp) (set_item s (item s)))
    as (children & Hsnd & _ & Hall).
  exists children. rewrite Hsnd. cbn [scraper_queue set_queue item set_item] in *.
  split; [reflexivity|].
  eapply Forall_impl; [exact Hall|].
  intros child (_ & _ & _ & Hp & _). exact Hp.
Qed.

(** ** fetch: which handler gets the item *)





(** ** The album handler, stopped half way *)

Lemma for_each_app {A} (xs ys : list A) (body : A -> M unit) s :
  for_each (xs ++ ys) body s = (for_each xs body ;;; for_each ys body) s.
Proof.
  revert s. induction xs as [|x xs IH]; intros s; [reflexivity|].
  cbn [for_each app]. unfold bind.
  destruct (body x s) as [[e|[]] s1]; [reflexivity|].
  rewrite IH. reflexivity.
Qed.

Lemma album_entry_broken c e s :
  broken_entry c e -> album_entry c s = (inl e, s).
Proof.
  unfold broken_entry, album_entry, bind. cbn [get_item lift].
  destruct (card_date c) as [t|]; cbn [required]; [|intros ->; reflexivity].
  intros [Hp | (Hp & -> & Hf)].
  - rewrite Hp. reflexivity.
  - destruct (parse_datetime t) as [e'|ts]; [discriminate|].
    destruct Hf as [-> | ->]; reflexivity.
Qed.

(** X19.  The album handler does not undo what it has done: when the
    entries before a broken one are well formed (a broken entry has no
    date element, a date that does not parse, or no link), the items of
    those entries are enqueued, in order, and stay enqueued, the title of
    the album stays merged, the exception of the broken entry is logged
    under the URL of the album, and no later entry is looked at. *)
Theorem album_stops_at_broken_entry
  (s : state) (sp : soup) (t0 album_id h : string)
  (good rest : list card) (bad : card) (e : exn) :
  get_BS4 domain (url (item s)) = inr sp ->
  title_text sp = Some t0 ->
  Url.parts (url (item s)) !! 2%nat = Some album_id ->
  host (url (item s)) = Some h ->
  card_listings sp = good ++ bad :: rest ->
  Forall (well_formed_card h) good ->
  broken_entry bad e ->
  let it' := add_to_parent_title (item s)
               (create_title (Str.strip t0) (Some album_id) None) in
  exists children,
    album s
    = (inr tt,
       set_failures (set_queue (set_item s it') (scraper_queue s ++ children))
                    (failures s ++ [(url (item s), e)]))
    /\ Forall2 (entry_of it' h) good children
    /\ handled (snd (album s)) = handled s.
Proof.
  intros Hsp Ht Hid Hh Hcards Hgood Hbad it'.
  assert (Hh' : host (url (item (set_item s it'))) = Some h).
  { cbn [item set_item]. subst it'. rewrite add_to_parent_title_shape. exact Hh. }
  destruct (album_entries_run good (set_item s it') h Hh' Hgood)
    as (children & Hchildren & Hrun).
  exists children. cbn [item set_item] in Hchildren.
  assert (Hbody : album_body s
                  = (inl e, set_queue (set_item s it')
                              (scraper_queue s ++ children))).
  { rewrite album_body_run, Hsp, Ht, Hid. fold it'.
    rewrite Hcards, for_each_app. unfold bind at 1. rewrite Hrun.
    cbn [scraper_queue set_item for_each]. unfold bind.
    rewrite (album_entry_broken bad e _ Hbad). reflexivity. }
  assert (Halbum : album s
    = (inr tt,
       set_failures (set_queue (set_item s it') (scraper_queue s ++ children))
                    (failures s ++ [(url (item s), e)]))).
  { unfold album. rewrite wrapper_run, Hbody. reflexivity. }
  split; [exact Halbum|]. split; [exact Hchildren|].
  rewrite Halbum. reflexivity.
Qed.

End Bunkrr.

(** * The statements at the sample inputs *)

#[local] Existing Instance Samples.library.

Local Abbreviation sample_get_stream_link :=
  (get_stream_link Samples.Images Samples.Videos).
Local Abbreviation sample_well_formed_card :=
  (well_formed_card Samples.Images Samples.Videos).
Local Abbreviation sample_album :=
  (album Samples.Images Samples.Videos Samples.sanitize_folder
         Samples.create_title Samples.get_BS4).
Local Abbreviation sample_video_body :=
  (video_body Samples.get_filename_and_ext Samples.get_BS4
              Samples.handle_file_raises).
Local Abbreviation sample_video :=
  (video Samples.get_filename_and_ext Samples.get_BS4
         Samples.handle_file_raises).
Local Abbreviation sample_fetch :=
  (fetch Samples.Images Samples.Videos Samples.sanitize_folder
         Samples.get_filename_and_ext Samples.create_title Samples.get_BS4
         Samples.handle_file_raises).

(** C1, as stated, fails: for an item whose URL has no host,
    [get_stream_link] raises TypeError inside [fetch], outside every
    wrapped handler, and [fetch] raises it to its caller. *)
Lemma fetch_raises_without_host :
  fst (sample_fetch
         (Samples.fresh Samples.auth_all_keys (Samples.item_at Samples.relative_url)))
  = inl TypeError.
Proof. vm_compute. reflexivity. Qed.

Lemma fetch_swallows_handler_failures_witness :
  sample_get_stream_link
    (url (item (Samples.primed (Samples.item_at (Samples.page_url "/v/clip")))))
  = inr (Samples.page_url "/v/clip")
  /\ configured (Samples.primed (Samples.item_at (Samples.page_url "/v/clip")))
  /\ fst (sample_fetch (Samples.primed (Samples.item_at (Samples.page_url "/v/clip"))))
     = inr tt.
Proof.
  split; [reflexivity|]. split; [left; reflexivity|].
  exact (proj1 (proj1 (fetch_swallows_handler_failures
                         Samples.Images Samples.Videos Samples.sanitize_folder
                         Samples.get_filename_and_ext Samples.create_title
                         Samples.get_BS4 Samples.handle_file_raises
                         (Samples.primed (Samples.item_at (Samples.page_url "/v/clip"))))
                      (Samples.page_url "/v/clip") eq_refl (or_introl eq_refl))).
Defined.

(** C2, as stated, fails: for an item whose URL has no host the task is
    registered and, [get_stream_link] raising, never removed. *)
Lemma fetch_leaves_task_registered :
  progress (snd (sample_fetch
                   (Samples.fresh Samples.auth_all_keys
                                  (Samples.item_at Samples.relative_url))))
  = [AddTask Samples.relative_url 0].
Proof. vm_compute. reflexivity. Qed.

Lemma add_to_parent_title_spec_witness :
  retry (Samples.item_at Samples.relative_url) = false
  /\ parent_title (add_to_parent_title Samples.sanitize_folder
                     (Samples.item_at Samples.relative_url) "Holiday: 2021")
     = "Downloads/Holiday- 2021".
Proof.
  split; [reflexivity|].
  refine (proj1 (proj2 (proj2 (add_to_parent_title_spec
                                 Samples.sanitize_folder
                                 (Samples.item_at Samples.relative_url)
                                 "Holiday: 2021"))
                       eq_refl _) _); discriminate.
Defined.

(** C4, as stated, fails: media-files.bunkr.ru matches the CDN pattern
    and .jpg is an image extension, yet the URL comes back as it is: the
    host is not rewritten to an image-serving one. *)
Lemma get_stream_link_keeps_media_files_host :
  Re.matches cdn_possibilities "media-files.bunkr.ru" = true
  /\ Str.mem (Str.lower (Url.suffix (Samples.file_url "media-files.bunkr.ru" "/pic.jpg")))
             Samples.Images = true
  /\ sample_get_stream_link (Samples.file_url "media-files.bunkr.ru" "/pic.jpg")
     = inr (Samples.file_url "media-files.bunkr.ru" "/pic.jpg").
Proof. repeat split; vm_compute; reflexivity. Qed.

Lemma get_stream_link_cases_witness :
  host (Samples.file_url "cdn12.bunkr.ru" "/x/clip.mp4") = Some "cdn12.bunkr.ru"
  /\ Re.matches cdn_possibilities "cdn12.bunkr.ru" = true
  /\ Str.mem (Str.lower (Url.suffix (Samples.file_url "cdn12.bunkr.ru" "/x/clip.mp4")))
             Samples.Videos = true
  /\ plain_name (Samples.file_url "cdn12.bunkr.ru" "/x/clip.mp4")
  /\ sample_get_stream_link (Samples.file_url "cdn12.bunkr.ru" "/x/clip.mp4")
     = inr (Samples.page_url "/v/clip.mp4").
Proof.
  split; [reflexivity|]. split; [reflexivity|]. split; [reflexivity|].
  split; [reflexivity|].
  destruct (get_stream_link_cases Samples.Images Samples.Videos
              (Samples.file_url "cdn12.bunkr.ru" "/x/clip.mp4") "cdn12.bunkr.ru"
              eq_refl) as [_ Hm].
  destruct (Hm eq_refl) as (_ & _ & Hvideo & _).
  destruct Hvideo as (_ & Hres); [discriminate | reflexivity | reflexivity |].
  exact (Hres eq_refl).
Defined.





Lemma parse_datetime_epoch_witness :
  PyTime.valid (mkDatetime 2021 3 5 14 30 0) = true
  /\ parse_datetime (PyTime.render (mkDatetime 2021 3 5 14 30 0))
     = inr 1614954600.
Proof.
  split; [reflexivity|].
  exact (proj1 (proj2 parse_datetime_epoch) (mkDatetime 2021 3 5 14 30 0) eq_refl).
Defined.

(** C8, as stated, fails: the name of the direct link has no extension,
    and neither has the name of the page URL; the fallback raises
    NoExtensionFailure as well, the handler fails with it and nothing is
    handed to [handle_file]. *)
Lemma video_fails_when_fallback_has_no_extension :
  Samples.get_filename_and_ext (Url.name Samples.video_link)
  = inl NoExtensionFailure
  /\ sample_video_body (Samples.primed (Samples.item_at (Samples.page_url "/v/clip")))
     = (inl NoExtensionFailure,
        Samples.primed (Samples.item_at (Samples.page_url "/v/clip")))
  /\ handled (snd (sample_video
                     (Samples.primed (Samples.item_at (Samples.page_url "/v/clip")))))
     = []
  /\ failures (snd (sample_video
                      (Samples.primed (Samples.item_at (Samples.page_url "/v/clip")))))
     = [(Samples.page_url "/v/clip", NoExtensionFailure)].
Proof. repeat split; vm_compute; reflexivity. Qed.

Lemma NoExtensionFailure_fallback_witness :
  Samples.get_BS4 domain (Samples.page_url "/v/clip.mp4") = inr Samples.video_page
  /\ Samples.get_filename_and_ext (Url.name Samples.video_link)
     = inl NoExtensionFailure
  /\ handled (snd (sample_video_body
                     (Samples.primed (Samples.item_at (Samples.page_url "/v/clip.mp4")))))
     = [(Samples.video_link, Samples.item_at (Samples.page_url "/v/clip.mp4"),
         "clip.mp4", ".mp4")].
Proof.
  split; [reflexivity|]. split; [reflexivity|].
  exact (proj2 (proj1 (NoExtensionFailure_fallback
                         Samples.get_filename_and_ext Samples.get_BS4
                         Samples.handle_file_raises
                         (Samples.primed (Samples.item_at (Samples.page_url "/v/clip.mp4")))
                         Samples.video_page eq_refl)
                  (Some "https://media-files.bunkr.ru/clip-Xy12")
                  Samples.video_link eq_refl eq_refl
                  NoExtensionFailure eq_refl)).
Defined.

Lemma get_stream_link_needs_host_witness :
  host Samples.relative_url = None
  /\ sample_get_stream_link Samples.relative_url = inl TypeError.
Proof.
  split; [reflexivity|].
  exact (proj1 (get_stream_link_needs_host Samples.Images Samples.Videos
                  Samples.relative_url) eq_refl).
Defined.

(** * The further properties at the sample inputs *)

Local Abbreviation sample_add_to_parent_title :=
  (add_to_parent_title Samples.sanitize_folder).
Local Abbreviation sample_other_body :=
  (other_body Samples.get_filename_and_ext Samples.get_BS4_file
              Samples.handle_file_raises).
Local Abbreviation sample_other :=
  (other Samples.get_filename_and_ext Samples.get_BS4
         Samples.handle_file_raises).

Lemma get_stream_link_fixed_point_witness :
  sample_get_stream_link (Samples.file_url "cdn12.bunkr.ru" "/one.jpg")
  = inr (Samples.file_url "i12.bunkr.ru" "/one.jpg")
  /\ sample_get_stream_link (Samples.file_url "i12.bunkr.ru" "/one.jpg")
     = inr (Samples.file_url "i12.bunkr.ru" "/one.jpg").
Proof.
  split; [reflexivity|].
  exact (get_stream_link_fixed_point Samples.Images Samples.Videos
           (Samples.file_url "cdn12.bunkr.ru" "/one.jpg")
           (Samples.file_url "i12.bunkr.ru" "/one.jpg") eq_refl).
Defined.

Lemma get_stream_link_raises_when_witness :
  Url.last_part (Samples.file_url "cdn.bunkr.ru" "/%2Fclip.mp4") = "/clip.mp4"
  /\ sample_get_stream_link (Samples.file_url "cdn.bunkr.ru" "/%2Fclip.mp4")
     = inl ValueError.
Proof.
  split; [reflexivity|].
  apply (proj1 (get_stream_link_raises_when
                  Samples.Images Samples.Videos
                  (Samples.file_url "cdn.bunkr.ru" "/%2Fclip.mp4") ValueError)).
  right. split; [reflexivity|]. exists "cdn.bunkr.ru".
  repeat split; try reflexivity. discriminate.
Defined.

Lemma fetch_url_settled_witness :
  sample_get_stream_link
    (url (item (Samples.primed
                  (Samples.item_at (Samples.file_url "cdn12.bunkr.ru" "/clip.mp4")))))
  = inr (Samples.page_url "/v/clip.mp4")
  /\ url (item (snd (sample_fetch
                      (Samples.primed
                         (Samples.item_at
                            (Samples.file_url "cdn12.bunkr.ru" "/clip.mp4"))))))
     = Samples.page_url "/v/clip.mp4"
  /\ sample_get_stream_link (Samples.page_url "/v/clip.mp4")
     = inr (Samples.page_url "/v/clip.mp4").
Proof.
  split; [reflexivity|].
  destruct (fetch_url_settled
              Samples.Images Samples.Videos Samples.sanitize_folder
              Samples.get_filename_and_ext Samples.create_title Samples.get_BS4
              Samples.handle_file_raises
              (Samples.primed
                 (Samples.item_at (Samples.file_url "cdn12.bunkr.ru" "/clip.mp4")))
              (Samples.page_url "/v/clip.mp4") eq_refl) as [Hurl Hfix].
  split; [exact Hurl|]. rewrite Hurl in Hfix. exact Hfix.
Defined.

Lemma parse_datetime_strict_witness :
  PyTime.valid (mkDatetime 2021 3 5 14 30 0) = true
  /\ parse_datetime (PyTime.render (mkDatetime 2021 3 5 14 30 0) +:+ " ")
     = inl ValueError.
Proof.
  split; [reflexivity|].
  refine (proj2 (proj2 parse_datetime_strict)
            (mkDatetime 2021 3 5 14 30 0) " " eq_refl _).
  discriminate.
Defined.

Lemma parse_datetime_range_witness :
  parse_datetime "23:59:59 31/12/9999" = inr 253402300799
  /\ -62135596800 <= 253402300799 <= 253402300799.
Proof.
  split; [reflexivity|].
  exact (parse_datetime_range "23:59:59 31/12/9999" 253402300799 eq_refl).
Defined.

Lemma parse_datetime_injective_witness :
  PyTime.strptime "14:30:00 05/03/2021" = inr (mkDatetime 2021 3 5 14 30 0)
  /\ PyTime.strptime "14:30:0  5/3/2021" = inr (mkDatetime 2021 3 5 14 30 0)
  /\ parse_datetime "14:30:00 05/03/2021" = parse_datetime "14:30:0  5/3/2021"
  /\ mkDatetime 2021 3 5 14 30 0 = mkDatetime 2021 3 5 14 30 0.
Proof.
  split; [reflexivity|]. split; [reflexivity|]. split; [reflexivity|].
  exact (parse_datetime_injective
           "14:30:00 05/03/2021" "14:30:0  5/3/2021"
           (mkDatetime 2021 3 5 14 30 0) (mkDatetime 2021 3 5 14 30 0)
           eq_refl eq_refl eq_refl).
Defined.

Lemma add_to_parent_title_accumulates_witness :
  retry (Samples.item_at Samples.relative_url) = false
  /\ Forall (fun t => t <> "") ["Holiday: 2021"; "Day 1"]
  /\ parent_title (fold_left sample_add_to_parent_title
                              ["Holiday: 2021"; "Day 1"]
                              (Samples.item_at Samples.relative_url))
     = "Downloads/Holiday- 2021/Day 1".
Proof.
  assert (Hall : Forall (fun t : string => t <> "") ["Holiday: 2021"; "Day 1"])
    by (repeat constructor; discriminate).
  split; [reflexivity|]. split; [exact Hall|].
  refine (proj1 (add_to_parent_title_accumulates
                   Samples.sanitize_folder
                   (Samples.item_at Samples.relative_url)
                   ["Holiday: 2021"; "Day 1"] eq_refl Hall) _).
  discriminate.
Defined.

Lemma set_cookies_writes_only_its_cookies_witness :
  ~ ddos_guard_cookie ("other.site", "sid")
  /\ cookies (snd (set_cookies
                     (Samples.fresh Samples.auth_all_keys
                                    (Samples.item_at Samples.relative_url))))
       !! ("other.site", "sid")
     = cookies (Samples.fresh Samples.auth_all_keys
                              (Samples.item_at Samples.relative_url))
         !! ("other.site", "sid").
Proof.
  assert (Hno : ~ ddos_guard_cookie ("other.site", "sid"))
    by (intros [H | [H | H]]; discriminate H).
  split; [exact Hno|].
  exact (proj1 (set_cookies_writes_only_its_cookies
                  (Samples.fresh Samples.auth_all_keys
                                 (Samples.item_at Samples.relative_url)))
               ("other.site", "sid") Hno).
Defined.

Lemma set_cookies_completes_iff_witness :
  fst (set_cookies (Samples.fresh Samples.auth_without_ddg1
                                  (Samples.item_at Samples.relative_url)))
  = inl (KeyError "bunkrr_ddg1")
  /\ cookies_set (snd (set_cookies
                         (Samples.fresh Samples.auth_without_ddg1
                                        (Samples.item_at Samples.relative_url))))
     = false.
Proof.
  split; [reflexivity|].
  exact (proj2 (proj2 (set_cookies_completes_iff
                         (Samples.fresh Samples.auth_without_ddg1
                                        (Samples.item_at Samples.relative_url)))
                      (KeyError "bunkrr_ddg1") eq_refl)).
Defined.

Lemma page_failure_is_logged_witness :
  Samples.get_BS4 domain (Samples.page_url "/d/file.zip")
  = inl (OtherError "404")
  /\ sample_other (Samples.primed (Samples.item_at (Samples.page_url "/d/file.zip")))
     = (inr tt,
        set_failures
          (Samples.primed (Samples.item_at (Samples.page_url "/d/file.zip")))
          [(Samples.page_url "/d/file.zip", OtherError "404")]).
Proof.
  split; [reflexivity|].
  exact (proj2 (proj2 (proj2 (page_failure_is_logged
                         Samples.Images Samples.Videos Samples.sanitize_folder
                         Samples.get_filename_and_ext Samples.create_title
                         Samples.get_BS4 Samples.handle_file_raises
                         (Samples.primed (Samples.item_at (Samples.page_url "/d/file.zip")))
                         (OtherError "404") eq_refl)))).
Defined.

Lemma link_name_is_used_first_witness :
  Samples.get_BS4_file domain (Samples.page_url "/d/report")
  = inr Samples.file_page
  /\ Samples.get_filename_and_ext (Url.name Samples.file_link)
     = inr ("report.pdf", ".pdf")
  /\ handled (snd (sample_other_body
                     (Samples.primed (Samples.item_at (Samples.page_url "/d/report")))))
     = [(Samples.file_link, Samples.item_at (Samples.page_url "/d/report"),
         "report.pdf", ".pdf")].
Proof.
  split; [reflexivity|]. split; [reflexivity|].
  exact (proj2 (proj2 (link_name_is_used_first
                         Samples.get_filename_and_ext Samples.get_BS4_file
                         Samples.handle_file_raises
                         (Samples.primed (Samples.item_at (Samples.page_url "/d/report")))
                         Samples.file_page "report.pdf" ".pdf" eq_refl)
                      (Some "https://media-files.bunkr.ru/report.pdf")
                      Samples.file_link eq_refl eq_refl eq_refl)).
Defined.

Lemma fetch_raises_before_dispatch_witness :
  fst (sample_fetch
         (Samples.fresh Samples.auth_all_keys (Samples.item_at Samples.relative_url)))
  = inl TypeError
  /\ failures (snd (sample_fetch
                      (Samples.fresh Samples.auth_all_keys
                                     (Samples.item_at Samples.relative_url))))
     = [].
Proof.
  split; [reflexivity|].
  exact (proj1 (proj2 (fetch_raises_before_dispatch
                         Samples.Images Samples.Videos Samples.sanitize_folder
                         Samples.get_filename_and_ext Samples.create_title
                         Samples.get_BS4 Samples.handle_file_raises
                         (Samples.fresh Samples.auth_all_keys
                                        (Samples.item_at Samples.relative_url))
                         TypeError eq_refl))).
Defined.

Lemma fetch_primes_once_witness :
  cookies_set (Samples.primed (Samples.item_at (Samples.page_url "/a/abc123")))
  = true
  /\ cookies (snd (sample_fetch
                     (Samples.primed (Samples.item_at (Samples.page_url "/a/abc123")))))
     = cookies (Samples.primed (Samples.item_at (Samples.page_url "/a/abc123"))).
Proof.
  split; [reflexivity|].
  exact (proj2 (proj2 (fetch_primes_once
                         Samples.Images Samples.Videos Samples.sanitize_folder
                         Samples.get_filename_and_ext Samples.create_title
                         Samples.get_BS4 Samples.handle_file_raises
                         (Samples.primed (Samples.item_at (Samples.page_url "/a/abc123"))))
                      eq_refl)).
Defined.

Lemma album_keeps_retry_item_witness :
  retry (item (Samples.primed Samples.retry_item)) = true
  /\ item (snd (sample_album (Samples.primed Samples.retry_item)))
     = Samples.retry_item.
Proof.
  split; [reflexivity|].
  exact (proj1 (album_keeps_retry_item
                  Samples.Images Samples.Videos Samples.sanitize_folder
                  Samples.create_title Samples.get_BS4
                  (Samples.primed Samples.retry_item) eq_refl)).
Defined.

Local Abbreviation sample_handler_body :=
  (handler_body Samples.Images Samples.Videos Samples.sanitize_folder
                Samples.get_filename_and_ext Samples.create_title
                Samples.get_BS4 Samples.handle_file_raises).


Lemma album_stops_at_broken_entry_witness :
  Samples.get_BS4 domain (Samples.page_url "/a/undated")
  = inr Samples.undated_page
  /\ broken_entry (mkCard (Some (Some "/i/two.png")) None) AttributeError
  /\ exists children,
       length children = 1%nat
       /\ scraper_queue
            (snd (sample_album
                    (Samples.primed (Samples.item_at (Samples.page_url "/a/undated")))))
          = children
       /\ failures
            (snd (sample_album
                    (Samples.primed (Samples.item_at (Samples.page_url "/a/undated")))))
          = [(Samples.page_url "/a/undated", AttributeError)].
Proof.
  assert (Hgood : Forall (sample_well_formed_card "bunkrr.su")
                    [mkCard (Some (Some "https://cdn12.bunkr.ru/one.jpg"))
                            (Some "14:30:00 05/03/2021")]).
  { repeat constructor; eexists _, _, _;
      (split; [reflexivity|]); (split; [reflexivity|]); (split; [reflexivity|]);
      (split; [vm_compute; reflexivity | reflexivity]). }
  split; [reflexivity|]. split; [reflexivity|].
  destruct (album_stops_at_broken_entry
              Samples.Images Samples.Videos Samples.sanitize_folder
              Samples.create_title Samples.get_BS4
              (Samples.primed (Samples.item_at (Samples.page_url "/a/undated")))
              Samples.undated_page "  Holiday: 2021 " "undated" "bunkrr.su"
              [mkCard (Some (Some "https://cdn12.bunkr.ru/one.jpg"))
                      (Some "14:30:00 05/03/2021")]
              [mkCard (Some (Some "https://media-files3.bunkr.ru/clip.mp4"))
                      (Some "23:59:59 01/01/2022")]
              (mkCard (Some (Some "/i/two.png")) None) AttributeError
              eq_refl eq_refl eq_refl eq_refl eq_refl Hgood eq_refl)
    as (children & Hrun & Hchildren & _).
  exists children. split; [symmetry; exact (Forall2_length _ _ _ Hchildren)|].
  rewrite Hrun. split; reflexivity.
Defined.
